(** * Jia: cooperative dialogue orchestration, validation and transcript store

    A shallow embedding of [main.py]: the response checks, the adapter
    dispatch [get_model_response], the transcript table [model_dialogues]
    with its three queries, and the two dialogue plans
    [test_russian_dialogue] and [test_task_solving_dialogue].

    Python values are modelled as the program uses them: a [str] is the list
    of its Unicode code points, a value returned by a backend is [None] or a
    [str], a raised exception is the [Raised] branch of a small error monad,
    the [responses] dictionary is a finite map and [set(...)] a finite set.
    An INSERT fails as [sqlite3] makes it fail: on a string that cannot be
    encoded as UTF-8 (a lone surrogate) when the parameters are bound, and on
    [None] for a NOT NULL column.  Console output is not modelled: printing
    is taken not to raise, as under the output capture of [pytest], which
    replaces what it cannot encode. *)

From Stdlib Require Import ZArith List Ascii String.
From stdpp Require Import base option list gmap sets countable sorting.

Local Open Scope Z_scope.

(** ** Python values and exceptions *)

Module Py.

(** A Python [str]: its sequence of code points. *)
Abbreviation text := (list Z).

(** An ASCII literal of the source as a [text]. *)
Definition str_lit (s : string) : text :=
  map (fun a => Z.of_N (N_of_ascii a)) (list_ascii_of_string s).
Arguments str_lit s%_string.

(** The newline character. *)
Definition nl : text := [10].

(** What an adapter call can hand back: [None] or a [str]. *)
Inductive pyval : Type :=
| PyNone
| PyStr (s : text).

#[global] Instance pyval_eq_dec : EqDecision pyval.
Proof. solve_decision. Defined.

#[global] Instance PyStr_inj : Inj (=) (=) PyStr.
Proof. intros a b H. injection H as ->. reflexivity. Qed.

Definition pyval_to_option (v : pyval) : option text :=
  match v with PyNone => None | PyStr s => Some s end.

#[global] Instance pyval_to_option_inj : Inj (=) (=) pyval_to_option.
Proof. intros [|a] [|b]; simpl; congruence. Qed.

#[global] Instance pyval_countable : Countable pyval :=
  inj_countable' pyval_to_option
    (fun o => match o with None => PyNone | Some s => PyStr s end)
    (fun v => match v with PyNone => eq_refl | PyStr _ => eq_refl end).

(** [isinstance(v, str)] *)
Definition isinstance_str (v : pyval) : bool :=
  match v with PyStr _ => true | PyNone => false end.

(** [f"{v}"]: a [str] is inserted as it is, [None] prints as its name. *)
Definition format_value (v : pyval) : text :=
  match v with PyStr s => s | PyNone => str_lit "None" end.

(** The exceptions that the modelled code can raise. *)
Inductive exn : Type :=
| AssertionError (msg : text)
| TypeError
| KeyError (key : text)
| IntegrityError
| UnicodeEncodeError.

(** A computation that returns a value or raises. *)
Inductive exec (A : Type) : Type :=
| Done (a : A)
| Raised (e : exn).
Arguments Done {A} a.
Arguments Raised {A} e.

#[global] Instance exec_ret : MRet exec := fun A a => Done a.
#[global] Instance exec_bind : MBind exec := fun A B f c =>
  match c with Done a => f a | Raised e => Raised e end.

(** [assert cond, msg] *)
Definition py_assert (cond : bool) (msg : text) : exec unit :=
  if cond then Done tt else Raised (AssertionError msg).

(** [for x in xs: s = body(x, s)], stopping at the first exception. *)
Fixpoint for_each {S A : Type} (xs : list A) (body : A -> S -> exec S)
    (s : S) : exec S :=
  match xs with
  | [] => Done s
  | x :: rest => s' ← body x s; for_each rest body s'
  end.

(** [sep.join(items)]; an item that is not a [str] raises [TypeError]. *)
Fixpoint join (sep : text) (items : list pyval) : exec text :=
  match items with
  | [] => Done []
  | PyNone :: _ => Raised TypeError
  | PyStr s :: [] => Done s
  | PyStr s :: rest => tl ← join sep rest; Done (s ++ sep ++ tl)
  end.

(** [str.isspace] for one code point: the whitespace table of CPython. *)
Definition isspace (c : Z) : bool :=
  ((0x09 <=? c) && (c <=? 0x0D)) || ((0x1C <=? c) && (c <=? 0x20))
  || (c =? 0x85) || (c =? 0xA0) || (c =? 0x1680)
  || ((0x2000 <=? c) && (c <=? 0x200A))
  || (c =? 0x2028) || (c =? 0x2029) || (c =? 0x202F) || (c =? 0x205F)
  || (c =? 0x3000).

(** [s.split()]: the maximal runs of characters that are not whitespace.
    [word] holds the characters of the run being read, last one first. *)
Fixpoint split_from (word : text) (s : text) : list text :=
  match s with
  | [] => match word with [] => [] | _ => [rev word] end
  | c :: rest =>
      if isspace c
      then match word with
           | [] => split_from [] rest
           | _ => rev word :: split_from [] rest
           end
      else split_from (c :: word) rest
  end.

Definition split (s : text) : list text := split_from [] s.

(** [re.search("[а-яА-Я]", s)] as a truth value: with a [str] pattern and no
    flags the class holds the code points U+0430..U+044F and U+0410..U+042F. *)
Definition in_class_russian (c : Z) : bool :=
  ((0x430 <=? c) && (c <=? 0x44F)) || ((0x410 <=? c) && (c <=? 0x42F)).

Definition re_search_russian (s : text) : bool := existsb in_class_russian s.

(** A surrogate code point.  A Python [str] can hold one on its own (the
    JSON text ["\ud83d"] decodes to such a string); UTF-8 has no encoding
    for it, and [s.encode("utf-8")] raises. *)
Definition surrogate (c : Z) : bool := (0xD800 <=? c) && (c <=? 0xDFFF).

Definition utf8_encodable (s : text) : bool :=
  forallb (fun c => negb (surrogate c)) s.

(** [s.center(width, fill)]: when [s] is shorter than [width], the padding
    is split as CPython does, the left side getting the extra character when
    both the padding and the width are odd. *)
Definition center (s : text) (width : nat) (fill : Z) : text :=
  if (width <=? length s)%nat then s
  else
    let marg := (width - length s)%nat in
    let left :=
      (marg / 2 + (if Nat.odd marg && Nat.odd width then 1 else 0))%nat in
    repeat fill left ++ s ++ repeat fill (marg - left)%nat.

End Py.

Import Py.

(** ** The transcript table *)

Module Store.

(** One row of [model_dialogues].  [timestamp] is the value of
    [CURRENT_TIMESTAMP] when the row was inserted, as a number of seconds
    (the stored text orders the same way); [aspect] is the nullable column. *)
Record row : Type := mk_row {
  id : Z;
  test_name : text;
  timestamp : Z;
  model_name : text;
  message_type : text;
  message_content : text;
  aspect : option text;
  sequence_number : Z
}.

(** The table, rows in order of insertion.  Nothing updates or deletes a
    row, so [AUTOINCREMENT] gives the n-th inserted row the id n. *)
Abbreviation database := (list row).

(** [init_db]: [CREATE TABLE IF NOT EXISTS] leaves an existing table alone. *)
Definition init_db (db : database) : database := db.

(** Stable insertion sort, the model of [ORDER BY]: rows with equal keys keep
    their order of insertion (SQL leaves the order of such rows open; the
    statements below that list rows have no two rows with equal keys, or
    hold for any order of them). *)
Fixpoint insert_by {A : Type} (le : A -> A -> bool) (x : A) (l : list A)
    : list A :=
  match l with
  | [] => [x]
  | y :: l' => if le x y then x :: l else y :: insert_by le x l'
  end.

Definition sort_by {A : Type} (le : A -> A -> bool) (l : list A) : list A :=
  foldr (insert_by le) [] l.

(** [SELECT * ... WHERE test_name = ? ORDER BY sequence_number] *)
Definition select_dialogue (db : database) (name : text) : list row :=
  sort_by (fun r1 r2 => sequence_number r1 <=? sequence_number r2)
          (filter (fun r => test_name r = name) db).

(** [SELECT DISTINCT test_name, timestamp ... ORDER BY timestamp DESC LIMIT 5] *)
Definition select_latest_tests (db : database) : list (text * Z) :=
  take 5
    (sort_by (fun p1 p2 => snd p2 <=? snd p1)
       (remove_dups (map (fun r => (test_name r, timestamp r)) db))).

(** The four columns read for each message of a listed test. *)
Definition message_columns (r : row) : text * text * text * option text :=
  (model_name r, message_type r, message_content r, aspect r).

(** [view_latest_test_results]: the tests it lists, each with the messages it
    prints for that test, in the order printed. *)
Definition view_latest_test_results (db : database)
    : list ((text * Z) * list (text * text * text * option text)) :=
  map (fun test => (test, map message_columns (select_dialogue db (fst test))))
      (select_latest_tests db).

End Store.

Import Store.

(** ** The test class: adapter dispatch, store access and the two plans *)

Module TestCooperativeBehavior.

(** What a call into a backend's client library does: it returns a value or
    raises an exception whose [str(e)] is [detail]. *)
Inductive outcome : Type :=
| Returns (v : pyval)
| Throws (detail : text).

(** The three backends.  The first argument counts the adapter calls already
    made in the run, so a backend may answer one prompt differently at
    different turns. *)
Record clients : Type := {
  openai_create : nat -> text -> outcome;
  ollama_generate : nat -> text -> outcome;
  gigachat_chat : nat -> text -> outcome
}.

(** The [except Exception] clause of [get_model_response]. *)
Definition error_text (client_type detail : text) : text :=
  str_lit "Error getting response from " ++ client_type ++ str_lit ": " ++ detail.

Definition caught (client_type : text) (o : outcome) : pyval :=
  match o with
  | Returns v => v
  | Throws detail => PyStr (error_text client_type detail)
  end.

Definition get_model_response (cl : clients) (tick : nat)
    (client_type prompt : text) : pyval :=
  if decide (client_type = str_lit "openai") then
    caught client_type (openai_create cl tick prompt)
  else if decide (client_type = str_lit "ollama") then
    caught client_type (ollama_generate cl tick prompt)
  else if decide (client_type = str_lit "gigachat") then
    caught client_type (gigachat_chat cl tick prompt)
  else PyNone.

(** A dialogue entry: a dictionary with the keys ["model"], ["type"],
    ["content"] and ["aspect"], of which only ["content"] is always there.
    A key that is there has a value, [None] or a string; [None] in a field
    of the record says that the key is missing. *)
Record entry : Type := mk_entry {
  e_model : option pyval;
  e_type : option pyval;
  e_content : pyval;
  e_aspect : option pyval
}.

(** Binding one parameter of the INSERT: a string is encoded as UTF-8,
    which fails on a lone surrogate. *)
Definition bind_parameter (v : pyval) : exec unit :=
  match v with
  | PyNone => Done tt
  | PyStr s => if utf8_encodable s then Done tt else Raised UnicodeEncodeError
  end.

(** One [conn.execute("INSERT ...", (...))]: the row it adds to a table of
    [n0] rows at time [ts].  The parameters [entry.get("model", "system")],
    [entry.get("type", "message")], [entry["content"]] and
    [entry.get("aspect")] are bound in order after the run name; the
    statement then fails when a NOT NULL column is given [None].  Texts are
    taken to be within the length limit of the database engine. *)
Definition insert_row (n0 : nat) (ts : Z) (name : text) (seq_num : nat)
    (e : entry) : exec row :=
  let model := default (PyStr (str_lit "system")) (e_model e) in
  let type := default (PyStr (str_lit "message")) (e_type e) in
  let content := e_content e in
  let aspect := default PyNone (e_aspect e) in
  _ ← bind_parameter (PyStr name);
  _ ← bind_parameter model;
  _ ← bind_parameter type;
  _ ← bind_parameter content;
  _ ← bind_parameter aspect;
  match model, type, content with
  | PyStr m, PyStr t, PyStr c =>
      Done (mk_row (Z.of_nat n0 + 1) name ts m t c (pyval_to_option aspect)
              (Z.of_nat seq_num))
  | _, _, _ => Raised IntegrityError
  end.

(** The [for seq_num, entry in enumerate(dialogue_entries)] loop on the open
    connection.  [now k] is [CURRENT_TIMESTAMP] at the INSERT of entry [k]. *)
Fixpoint insert_entries (conn : database) (now : nat -> Z) (name : text)
    (seq_num : nat) (dialogue_entries : list entry) : exec database :=
  match dialogue_entries with
  | [] => Done conn
  | e :: rest =>
      r ← insert_row (length conn) (now seq_num) name seq_num e;
      insert_entries (conn ++ [r]) now name (S seq_num) rest
  end.

(** [save_dialogue_to_db]: the inserts are committed together; when one
    raises (a string that cannot be encoded, [None] for a NOT NULL column),
    the connection is closed without a commit and the table is as before. *)
Definition save_dialogue_to_db (db : database) (now : nat -> Z) (name : text)
    (dialogue_entries : list entry) : exec unit * database :=
  match insert_entries db now name 0 dialogue_entries with
  | Done conn => (Done tt, conn)
  | Raised e => (Raised e, db)
  end.

Definition get_dialogue_from_db (db : database) (name : text) : list row :=
  select_dialogue db name.

(** [print_dialogue_section]: the strings handed to the five [print] calls,
    in order.  [content] is the accepted response at every call site. *)
Definition print_dialogue_section (title content : text) : list text :=
  [nl ++ repeat 61 80;
   center (str_lit " " ++ title ++ str_lit " ") 80 61;
   repeat 61 80;
   content;
   repeat 45 80].

(** [dict[key]] *)
Definition getitem (d : gmap text pyval) (key : text) : exec pyval :=
  match d !! key with
  | Some v => Done v
  | None => Raised (KeyError key)
  end.

Definition indent (n : nat) : text := repeat 32 n.
Arguments indent n%_nat.
Definition line (n : nat) (s : string) : text := indent n ++ str_lit s ++ nl.
Arguments line n%_nat s%_string.

Definition models : list text :=
  [str_lit "openai"; str_lit "ollama"; str_lit "gigachat"].

(** *** Plan A: [test_russian_dialogue] *)

Definition topic : text :=
  nl
  ++ line 8 "Let's discuss the importance of collaboration between different language models "
  ++ line 8 "for solving complex tasks. How can we best utilize the strengths of each model?"
  ++ indent 8.

Definition discussion_prompt (context : text) : text :=
  nl
  ++ line 16 "Context of the previous discussion:"
  ++ indent 16 ++ context ++ nl
  ++ nl
  ++ line 16 "Please continue the dialogue, considering the following requirements:"
  ++ line 16 "1. The response must be in Russian"
  ++ line 16 "2. The response must be related to previous messages"
  ++ line 16 "3. Provide a constructive suggestion or idea"
  ++ line 16 "4. Response length - no more than 2-3 sentences"
  ++ indent 16.

(** The seed of plan A. *)
Definition topic_entry : entry :=
  mk_entry (Some (PyStr (str_lit "system"))) (Some (PyStr (str_lit "topic")))
    (PyStr topic) None.

(** The entry appended for an accepted response. *)
Definition response_entry (model s : text) : entry :=
  mk_entry (Some (PyStr model)) (Some (PyStr (str_lit "response"))) (PyStr s)
    None.

Section WithUnicode.

(** [str.isalpha] for one code point (the letter categories of the Unicode
    character database, which is not part of the program). *)
Variable isalpha : Z -> bool.

(** The four assertions on a round's response (lines 199-205). *)
Definition check_response (model : text) (response : pyval) : exec text :=
  match response with
  | PyNone =>
      Raised (AssertionError
                (str_lit "Response from " ++ model ++ str_lit " must be a string"))
  | PyStr s =>
      _ ← py_assert (0 <? length s)%nat
            (str_lit "Response from " ++ model ++ str_lit " must not be empty");
      _ ← py_assert (existsb isalpha s)
            (str_lit "Response from " ++ model ++ str_lit " must contain letters");
      _ ← py_assert (re_search_russian s)
            (str_lit "Response from " ++ model ++ str_lit " must be in Russian");
      Done s
  end.

(** One turn of the inner loop.  The state is the number of adapter calls
    made and [dialogue_entries]. *)
Definition discussion_turn (cl : clients) (model : text)
    (st : nat * list entry) : exec (nat * list entry) :=
  let '(tick, dialogue_entries) := st in
  context ← join nl (map e_content dialogue_entries);
  let prompt := discussion_prompt context in
  let response := get_model_response cl tick model prompt in
  s ← check_response model response;
  Done (S tick, dialogue_entries ++ [response_entry model s]).

(** Both loops, from the seeded [dialogue_entries]. *)
Definition discussion_rounds (cl : clients) : exec (nat * list entry) :=
  for_each (seq 0 3)
    (fun _ st => for_each models (discussion_turn cl) st)
    (0%nat, [topic_entry]).

(** [stamp] is [datetime.datetime.now().strftime('%Y%m%d_%H%M%S')]. *)
Definition test_russian_dialogue (cl : clients) (now : nat -> Z)
    (stamp : text) (db : database) : exec unit * database :=
  let test_name := str_lit "russian_dialogue_" ++ stamp in
  match discussion_rounds cl with
  | Raised e => (Raised e, db)
  | Done (_, dialogue_entries) =>
      save_dialogue_to_db db now test_name dialogue_entries
  end.

End WithUnicode.

(** *** Plan B: [test_task_solving_dialogue] *)

Definition task : text :=
  nl
  ++ line 8 "Task: Develop a concept for an educational platform for children."
  ++ line 8 "Each model should propose a solution for the following aspects:"
  ++ line 8 "1. Technical aspect"
  ++ line 8 "2. Pedagogical aspect"
  ++ line 8 "3. User experience aspect"
  ++ indent 8.

(** The [aspects] dictionary; [aspects.items()] yields its pairs in the order
    they were written. *)
Definition aspects : list (text * text) :=
  [(str_lit "openai", str_lit "technical aspect of the platform");
   (str_lit "ollama", str_lit "pedagogical aspect of the platform");
   (str_lit "gigachat", str_lit "user experience aspect")].

Definition aspect_prompt (aspect : text) : text :=
  nl
  ++ indent 12 ++ task ++ nl
  ++ nl
  ++ indent 12 ++ str_lit "Please propose a solution for the following aspect: "
  ++ aspect ++ nl
  ++ nl
  ++ line 12 "Requirements for the response:"
  ++ line 12 "1. The response must be in Russian"
  ++ line 12 "2. Provide a specific solution"
  ++ line 12 "3. Explain how it will help in children's education"
  ++ line 12 "4. Response length - 2-3 sentences"
  ++ indent 12.

(** The seed of plan B. *)
Definition task_entry : entry :=
  mk_entry (Some (PyStr (str_lit "system"))) (Some (PyStr (str_lit "task")))
    (PyStr task) None.

(** The entries appended in the two phases. *)
Definition aspect_entry (model aspect : text) (response : pyval) : entry :=
  mk_entry (Some (PyStr model)) (Some (PyStr (str_lit "aspect_response")))
    response (Some (PyStr aspect)).

Definition final_entry (model : text) (final_response : pyval) : entry :=
  mk_entry (Some (PyStr model)) (Some (PyStr (str_lit "final_response")))
    final_response None.

(** The three assertions on an aspect response (lines 276-279). *)
Definition check_aspect_response (model : text) (response : pyval)
    : exec text :=
  match response with
  | PyNone =>
      Raised (AssertionError
                (str_lit "Response from " ++ model ++ str_lit " must be a string"))
  | PyStr s =>
      _ ← py_assert (0 <? length s)%nat
            (str_lit "Response from " ++ model ++ str_lit " must not be empty");
      _ ← py_assert (re_search_russian s)
            (str_lit "Response from " ++ model ++ str_lit " must be in Russian");
      Done s
  end.

(** The state of the two loops of plan B: the number of adapter calls made,
    the [responses] dictionary and [dialogue_entries]. *)
Abbreviation task_state := (nat * gmap text pyval * list entry)%type.

Definition aspect_turn (cl : clients) (item : text * text) (st : task_state)
    : exec task_state :=
  let '(model, aspect) := item in
  let '(tick, responses, dialogue_entries) := st in
  let prompt := aspect_prompt aspect in
  let response := get_model_response cl tick model prompt in
  let responses := <[model := response]> responses in
  let dialogue_entries :=
    dialogue_entries ++ [aspect_entry model aspect response] in
  _ ← check_aspect_response model response;
  Done (S tick, responses, dialogue_entries).

Definition final_prompt (responses : gmap text pyval) : exec text :=
  technical ← getitem responses (str_lit "openai");
  pedagogical ← getitem responses (str_lit "ollama");
  ux ← getitem responses (str_lit "gigachat");
  Done (nl
        ++ line 8 "Analyze the proposed solutions and suggest how they can be combined:"
        ++ indent 8 ++ str_lit "Technical solution: " ++ format_value technical ++ nl
        ++ indent 8 ++ str_lit "Pedagogical solution: " ++ format_value pedagogical ++ nl
        ++ indent 8 ++ str_lit "UX solution: " ++ format_value ux ++ nl
        ++ nl
        ++ line 8 "Requirements for the response:"
        ++ line 8 "1. The response must be in Russian"
        ++ line 8 "2. Propose a concrete plan for combining the solutions"
        ++ line 8 "3. Indicate the advantages of such a combination"
        ++ line 8 "4. Response length - 3-4 sentences"
        ++ indent 8).

Definition min_words : nat := 20.

(** The four assertions on a final response (lines 309-317). *)
Definition check_final_response (model : text) (final_response : pyval)
    : exec text :=
  match final_response with
  | PyNone =>
      Raised (AssertionError
                (str_lit "Final response from " ++ model
                 ++ str_lit " must be a string"))
  | PyStr s =>
      _ ← py_assert (0 <? length s)%nat
            (str_lit "Final response from " ++ model
             ++ str_lit " must not be empty");
      _ ← py_assert (re_search_russian s)
            (str_lit "Final response from " ++ model
             ++ str_lit " must be in Russian");
      let word_count := length (split s) in
      _ ← py_assert (min_words <=? word_count)%nat
            (str_lit "Final response from " ++ model
             ++ str_lit " is too short (less than 20 words)");
      Done s
  end.

Definition final_key (model : text) : text := model ++ str_lit "_final".

Definition final_turn (cl : clients) (prompt : text) (model : text)
    (st : task_state) : exec task_state :=
  let '(tick, responses, dialogue_entries) := st in
  let final_response := get_model_response cl tick model prompt in
  let dialogue_entries :=
    dialogue_entries ++ [final_entry model final_response] in
  _ ← check_final_response model final_response;
  Done (S tick, <[final_key model := final_response]> responses,
        dialogue_entries).

(** Everything up to the store call: both loops. *)
Definition task_turns (cl : clients) : exec task_state :=
  st ← for_each aspects (aspect_turn cl) (0%nat, ∅, [task_entry]);
  prompt ← final_prompt (st.1.2);
  for_each models (final_turn cl prompt) st.

(** [[responses[f"{model}_final"] for model in models]] *)
Definition final_responses (responses : gmap text pyval) : exec (list pyval) :=
  mapM (fun model => getitem responses (final_key model)) models.

(** The last assertion (lines 326-327). *)
Definition check_unique (responses : gmap text pyval) : exec unit :=
  finals ← final_responses responses;
  py_assert
    (size (list_to_set finals : gset pyval) =? length models)%nat
    (str_lit "Final responses from models must be unique").

Definition test_task_solving_dialogue (cl : clients) (now : nat -> Z)
    (stamp : text) (db : database) : exec unit * database :=
  let test_name := str_lit "task_solving_" ++ stamp in
  match task_turns cl with
  | Raised e => (Raised e, db)
  | Done (_, responses, dialogue_entries) =>
      match save_dialogue_to_db db now test_name dialogue_entries with
      | (Raised e, db') => (Raised e, db')
      | (Done _, db') => (check_unique responses, db')
      end
  end.

End TestCooperativeBehavior.

Import TestCooperativeBehavior.

(** ** Notions of the specification *)

Module Spec.

(** A Cyrillic character: a code point of one of the Cyrillic blocks of
    Unicode (Cyrillic, Supplement, Extended-A to Extended-D). *)
Definition is_cyrillic (c : Z) : bool :=
  ((0x400 <=? c) && (c <=? 0x52F))
  || ((0x1C80 <=? c) && (c <=? 0x1C8F))
  || ((0x2DE0 <=? c) && (c <=? 0x2DFF))
  || ((0xA640 <=? c) && (c <=? 0xA69F))
  || ((0x1E030 <=? c) && (c <=? 0x1E08F)).

(** A Cyrillic letter of the two basic blocks U+0400..U+052F: every code
    point there but the sign U+0482 and the combining marks U+0483..U+0489. *)
Definition is_cyrillic_letter (c : Z) : bool :=
  ((0x400 <=? c) && (c <=? 0x481)) || ((0x48A <=? c) && (c <=? 0x52F)).

(** Where the specification lets an append start numbering: after the
    largest sequence number stored for the run, at 0 when there is none. *)
Definition next_sequence_number (db : database) (name : text) : Z :=
  match map sequence_number (filter (fun r => test_name r = name) db) with
  | [] => 0
  | s :: rest => 1 + foldr Z.max s rest
  end.



End Spec.

Import Spec.

(** ** Sample inputs *)

Module Sample.

(** [str.isalpha] on the ASCII and the basic Cyrillic blocks, the only code
    points of the sample texts. *)
Definition isalpha (c : Z) : bool :=
  ((65 <=? c) && (c <=? 90)) || ((97 <=? c) && (c <=? 122))
  || is_cyrillic_letter c.

(** The word [Привет]. *)
Definition privet : text := [0x41F; 0x440; 0x438; 0x432; 0x435; 0x442].

(** Twenty words. *)
Definition twenty_words : text := concat (repeat (privet ++ [32]) 20).

Definition stamp : text := str_lit "20250101_120000".

Definition one_entry : entry :=
  mk_entry (Some (PyStr (str_lit "openai"))) (Some (PyStr (str_lit "response")))
    (PyStr privet) None.

(** Every INSERT falls in the same second. *)
Definition same_second (k : nat) : Z := 1735732800.

(** The clock moves on by a second between two INSERTs. *)
Definition ticking (k : nat) : Z := 1735732800 + Z.of_nat k.

(** All three backends answer in Russian, each turn differently. *)
Definition cooperative : clients := {|
  openai_create := fun tick _ => Returns (PyStr (twenty_words ++ [48 + Z.of_nat tick]));
  ollama_generate := fun tick _ => Returns (PyStr (twenty_words ++ [48 + Z.of_nat tick]));
  gigachat_chat := fun tick _ => Returns (PyStr (twenty_words ++ [48 + Z.of_nat tick]))
|}.

(** The second backend always answers with the empty string. *)
Definition ollama_silent : clients := {|
  openai_create := fun _ _ => Returns (PyStr privet);
  ollama_generate := fun _ _ => Returns (PyStr []);
  gigachat_chat := fun _ _ => Returns (PyStr privet)
|}.

(** All three backends give the same twenty words. *)
Definition parrots : clients := {|
  openai_create := fun _ _ => Returns (PyStr twenty_words);
  ollama_generate := fun _ _ => Returns (PyStr twenty_words);
  gigachat_chat := fun _ _ => Returns (PyStr twenty_words)
|}.


(** Twenty words and a lone surrogate, as the JSON text ["\ud83d"] decodes
    to one. *)
Definition broken_words : text := twenty_words ++ [0xD83D].

(** All three backends give the same text, which no INSERT can encode. *)
Definition broken_parrots : clients := {|
  openai_create := fun _ _ => Returns (PyStr broken_words);
  ollama_generate := fun _ _ => Returns (PyStr broken_words);
  gigachat_chat := fun _ _ => Returns (PyStr broken_words)
|}.

(** The state in which the two loops of plan B end for given backends. *)
Definition state_of (cl : clients) : nat * gmap text pyval * list entry :=
  match task_turns cl with
  | Done st => st
  | Raised _ => (0%nat, ∅, [])
  end.

End Sample.

(** ** Auxiliary definitions for the statements *)

(** The values handed to the INSERT for the speaker, the kind and the
    aspect of an entry. *)
Definition entry_model (e : entry) : pyval :=
  default (PyStr (str_lit "system")) (e_model e).

Definition entry_type (e : entry) : pyval :=
  default (PyStr (str_lit "message")) (e_type e).

Definition entry_aspect (e : entry) : pyval := default PyNone (e_aspect e).

(** The row that a successful INSERT of an entry adds. *)
Definition row_of (n0 : nat) (ts : Z) (name : text) (seq_num : nat) (e : entry)
    : row :=
  mk_row (Z.of_nat n0 + 1) name ts
    (format_value (entry_model e)) (format_value (entry_type e))
    (format_value (e_content e)) (pyval_to_option (entry_aspect e))
    (Z.of_nat seq_num).

(** Whether the INSERT of an entry under a run name goes through, and what it
    raises when it does not. *)
Definition insertable (name : text) (e : entry) : bool :=
  match insert_row 0 0 name 0 e with Done _ => true | Raised _ => false end.

Definition row_error (name : text) (e : entry) : exn :=
  match insert_row 0 0 name 0 e with
  | Done _ => IntegrityError
  | Raised x => x
  end.

(** What the insert loop raises: the exception of the first entry whose
    INSERT fails. *)
Fixpoint insert_error (name : text) (dialogue_entries : list entry) : exn :=
  match dialogue_entries with
  | [] => IntegrityError
  | e :: rest =>
      if insertable name e then insert_error name rest else row_error name e
  end.

(** An entry that can be stored: its speaker, kind and content are strings
    (the two first may be left out), and none of its strings, the aspect
    included, holds a lone surrogate. *)
Definition storable (e : entry) : Prop :=
  (exists m t c,
      entry_model e = PyStr m /\ entry_type e = PyStr t
      /\ e_content e = PyStr c
      /\ utf8_encodable m = true /\ utf8_encodable t = true
      /\ utf8_encodable c = true)
  /\ (forall a, e_aspect e = Some (PyStr a) -> utf8_encodable a = true).

(** The rows that a committed [save_dialogue_to_db] adds: entry [k] of the
    call becomes the row with sequence number [k]; [n0] rows were in the
    table before. *)
Fixpoint rows_from (n0 : nat) (now : nat -> Z) (name : text) (seq_num : nat)
    (dialogue_entries : list entry) : list row :=
  match dialogue_entries with
  | [] => []
  | e :: rest =>
      row_of n0 (now seq_num) name seq_num e
      :: rows_from (S n0) now name (S seq_num) rest
  end.

(** A sequence of store calls, each with its run name, its clock and its
    entries, applied to a table one after the other. *)
Definition save_call : Type := text * (nat -> Z) * list entry.

Definition run_saves (calls : list save_call) (db : database) : database :=
  foldl (fun db call =>
           snd (save_dialogue_to_db db (call.1.2) (call.1.1) (call.2)))
        db calls.

(** Rows numbered 0, 1, ..., k-1 in that order. *)
Definition numbered_from_zero (rows : list row) : Prop :=
  map sequence_number rows = map Z.of_nat (seq 0 (length rows)).

(** [sep.join(items)] for items that are all strings. *)
Fixpoint join_text (sep : text) (items : list text) : text :=
  match items with
  | [] => []
  | s :: [] => s
  | s :: rest => s ++ sep ++ join_text sep rest
  end.

(** The order in which the three rounds of plan A go through the backends. *)
Definition round_robin : list text := models ++ models ++ models.

(** The text of the synthesis prompt for three accepted aspect responses. *)
Definition final_prompt_text (technical pedagogical ux : text) : text :=
  nl
  ++ line 8 "Analyze the proposed solutions and suggest how they can be combined:"
  ++ indent 8 ++ str_lit "Technical solution: " ++ technical ++ nl
  ++ indent 8 ++ str_lit "Pedagogical solution: " ++ pedagogical ++ nl
  ++ indent 8 ++ str_lit "UX solution: " ++ ux ++ nl
  ++ nl
  ++ line 8 "Requirements for the response:"
  ++ line 8 "1. The response must be in Russian"
  ++ line 8 "2. Propose a concrete plan for combining the solutions"
  ++ line 8 "3. Indicate the advantages of such a combination"
  ++ line 8 "4. Response length - 3-4 sentences"
  ++ indent 8.

(** The four ways in which a response of plan A is turned down, the three
    of an aspect response and the four of a final response, as the endings
    of the assertion messages. *)
Definition response_failures : list text :=
  [str_lit " must be a string"; str_lit " must not be empty";
   str_lit " must contain letters"; str_lit " must be in Russian"].

Definition aspect_failures : list text :=
  [str_lit " must be a string"; str_lit " must not be empty";
   str_lit " must be in Russian"].

Definition final_failures : list text :=
  [str_lit " must be a string"; str_lit " must not be empty";
   str_lit " must be in Russian";
   str_lit " is too short (less than 20 words)"].

(** The message of the last assertion of plan B. *)
Definition unique_msg : text :=
  str_lit "Final responses from models must be unique".

(** * Properties *)

(** ** The exception monad and the loops *)

Lemma bind_Done {A B : Type} (c : exec A) (f : A -> exec B) (b : B) :
  c ≫= f = Done b <-> exists a, c = Done a /\ f a = Done b.
Proof.
  destruct c as [a|e]; simpl; split.
  - intros H. exists a. split; [reflexivity | exact H].
  - intros (a' & Ha & H). injection Ha as ->. exact H.
  - discriminate.
  - intros (a' & Ha & _). discriminate.
Qed.

Lemma bind_Raised {A B : Type} (c : exec A) (f : A -> exec B) (e : exn) :
  c ≫= f = Raised e <->
  c = Raised e \/ exists a, c = Done a /\ f a = Raised e.
Proof.
  destruct c as [a|e']; simpl; split.
  - intros H. right. exists a. split; [reflexivity | exact H].
  - intros [H | (a' & Ha & H)]; [discriminate |]. injection Ha as ->. exact H.
  - intros H. left. congruence.
  - intros [H | (a' & Ha & _)]; [congruence | discriminate].
Qed.

Lemma py_assert_Done (cond : bool) (msg : text) (u : unit) :
  py_assert cond msg = Done u <-> cond = true.
Proof. destruct cond, u; simpl; split; congruence. Qed.

Lemma assert_bind {A : Type} (cond : bool) (msg : text) (k : unit -> exec A) :
  py_assert cond msg ≫= k = if cond then k tt else Raised (AssertionError msg).
Proof. destruct cond; reflexivity. Qed.

(** A chain of assertions that ends in [Done t]: case analysis on each
    condition. *)
Ltac assertion_chain :=
  rewrite ?assert_bind;
  repeat match goal with
         | |- context [if ?c then _ else _] => destruct c eqn:?
         end;
  (split;
   [ intros Heq; try discriminate Heq; injection Heq as ->; auto
   | intros Hall; decompose [and] Hall; clear Hall;
     match goal with
     | Heq : PyStr _ = PyStr _ |- _ => injection Heq as ->
     end;
     congruence ]).

Lemma for_each_cons {S A : Type} (x : A) (xs : list A)
    (body : A -> S -> exec S) (s : S) :
  for_each (x :: xs) body s = body x s ≫= for_each xs body.
Proof. reflexivity. Qed.

Lemma for_each_app {S A : Type} (xs ys : list A) (body : A -> S -> exec S)
    (s : S) :
  for_each (xs ++ ys) body s = for_each xs body s ≫= for_each ys body.
Proof.
  revert s. induction xs as [|x xs IH]; intros s; [reflexivity |].
  simpl. destruct (body x s) as [s'|e]; simpl; [apply IH | reflexivity].
Qed.

(** A loop whose body is a loop over [ys] runs the inner body over the
    repeated [ys], row by row. *)
Lemma for_each_nested {S A B : Type} (xs : list A) (ys : list B)
    (body : B -> S -> exec S) (s : S) :
  for_each xs (fun _ st => for_each ys body st) s
  = for_each (concat (map (fun _ => ys) xs)) body s.
Proof.
  revert s. induction xs as [|x xs IH]; intros s; [reflexivity |].
  simpl. rewrite for_each_app.
  destruct (for_each ys body s) as [s'|e]; simpl; [apply IH | reflexivity].
Qed.

(** ** The target-language check *)

Lemma in_class_russian_range (c : Z) :
  in_class_russian c = true <-> 0x410 <= c <= 0x44F.
Proof. unfold in_class_russian. lia. Qed.

Lemma in_class_russian_cyrillic (c : Z) :
  in_class_russian c = true -> is_cyrillic c = true.
Proof. unfold in_class_russian, is_cyrillic. lia. Qed.

Lemma re_search_russian_iff (t : text) :
  re_search_russian t = true <-> exists c, c ∈ t /\ 0x410 <= c <= 0x44F.
Proof.
  unfold re_search_russian. rewrite existsb_exists. split.
  - intros (c & Hin & Hc). exists c. rewrite list_elem_of_In.
    split; [exact Hin | apply in_class_russian_range, Hc].
  - intros (c & Hin & Hc). exists c. rewrite <- list_elem_of_In.
    split; [exact Hin | apply in_class_russian_range, Hc].
Qed.

(** C2, as the claim states it, fails: the text made of the one Cyrillic
    letter U+0456 (the Ukrainian and Belarusian i) is not empty and holds a
    Cyrillic letter, and the target-language check rejects it. *)
Lemma target_language_check_rejects_a_cyrillic_letter :
  [0x456] <> @nil Z
  /\ existsb is_cyrillic_letter [0x456] = true
  /\ re_search_russian [0x456] = false.
Proof. split; [discriminate | split; reflexivity]. Qed.

(** C2 (amended): the target-language check fails for every text with no
    Cyrillic character, and it passes for every text with at least one
    letter of the ranges U+0410..U+042F and U+0430..U+044F, the capital and
    the small letters from А to Я. *)
Theorem target_language_check_sound (t : text) :
  ((forall c, c ∈ t -> is_cyrillic c = false) -> re_search_russian t = false)
  /\ ((exists c, c ∈ t /\ (0x410 <= c <= 0x42F \/ 0x430 <= c <= 0x44F)) ->
      re_search_russian t = true).
Proof.
  split.
  - intros Hnone. destruct (re_search_russian t) eqn:Hs; [| reflexivity].
    apply re_search_russian_iff in Hs as (c & Hin & Hc).
    specialize (Hnone c Hin).
    assert (is_cyrillic c = true) as Hcyr
      by (apply in_class_russian_cyrillic, in_class_russian_range, Hc).
    congruence.
  - intros (c & Hin & Hc). apply re_search_russian_iff.
    exists c. split; [exact Hin | lia].
Qed.

Lemma target_language_check_sound_witness :
  re_search_russian (str_lit "hello") = false
  /\ re_search_russian Sample.privet = true.
Proof.
  split.
  - apply (proj1 (target_language_check_sound (str_lit "hello"))).
    intros c Hc. apply list_elem_of_In in Hc. simpl in Hc.
    repeat (destruct Hc as [<- | Hc]; [reflexivity |]). destruct Hc.
  - apply (proj2 (target_language_check_sound Sample.privet)).
    exists 0x41F. split; [apply list_elem_of_here | lia].
Defined.

(** ** The adapter dispatch *)

Lemma get_model_response_unknown (cl : clients) (tick : nat)
    (client_type prompt : text) :
  client_type ∉ models -> get_model_response cl tick client_type prompt = PyNone.
Proof.
  intros Hout. unfold get_model_response, models in *.
  repeat case_decide; try reflexivity; subst; exfalso; apply Hout;
    repeat constructor.
Qed.

(** C9: for a [client_type] that is none of ["openai"], ["ollama"] and
    ["gigachat"], and any prompt, [get_model_response] returns [None] (it
    returns, being a total function, and the value is neither a text nor the
    error string); each of the three validations then stops at its first
    assertion, the one that the value is a string. *)
Theorem unknown_client_type_returns_none (isalpha : Z -> bool) (cl : clients)
    (tick : nat) (client_type prompt : text) :
  client_type ∉ models ->
  let response := get_model_response cl tick client_type prompt in
  response = PyNone
  /\ isinstance_str response = false
  /\ check_response isalpha client_type response
     = Raised (AssertionError
                 (str_lit "Response from " ++ client_type
                  ++ str_lit " must be a string"))
  /\ check_aspect_response client_type response
     = Raised (AssertionError
                 (str_lit "Response from " ++ client_type
                  ++ str_lit " must be a string"))
  /\ check_final_response client_type response
     = Raised (AssertionError
                 (str_lit "Final response from " ++ client_type
                  ++ str_lit " must be a string")).
Proof.
  intros Hout response. subst response.
  rewrite (get_model_response_unknown cl tick client_type prompt Hout).
  repeat split; reflexivity.
Qed.

Lemma unknown_client_type_returns_none_witness :
  let response :=
    get_model_response Sample.cooperative 0 (str_lit "claude") Sample.privet in
  response = PyNone
  /\ isinstance_str response = false
  /\ check_response Sample.isalpha (str_lit "claude") response
     = Raised (AssertionError (str_lit "Response from claude must be a string"))
  /\ check_aspect_response (str_lit "claude") response
     = Raised (AssertionError (str_lit "Response from claude must be a string"))
  /\ check_final_response (str_lit "claude") response
     = Raised (AssertionError
                 (str_lit "Final response from claude must be a string")).
Proof.
  apply (unknown_client_type_returns_none Sample.isalpha Sample.cooperative 0
           (str_lit "claude") Sample.privet).
  apply (bool_decide_unpack _). vm_compute. reflexivity.
Defined.

(** ** The store: what one call writes *)

Lemma rows_from_length n0 now name k es :
  length (rows_from n0 now name k es) = length es.
Proof.
  revert n0 k. induction es as [|e es IH]; intros n0 k; simpl;
    [reflexivity | f_equal; apply IH].
Qed.

Lemma rows_from_sequence_number n0 now name k es :
  map sequence_number (rows_from n0 now name k es)
  = map Z.of_nat (seq k (length es)).
Proof.
  revert n0 k. induction es as [|e es IH]; intros n0 k; simpl;
    [reflexivity | f_equal; apply IH].
Qed.

Lemma rows_from_test_name n0 now name k es :
  Forall (fun r => test_name r = name) (rows_from n0 now name k es).
Proof.
  revert n0 k. induction es as [|e es IH]; intros n0 k; simpl;
    constructor; [reflexivity | apply IH].
Qed.

Lemma rows_from_message_content n0 now name k es :
  map message_content (rows_from n0 now name k es)
  = map (fun e => format_value (e_content e)) es.
Proof.
  revert n0 k. induction es as [|e es IH]; intros n0 k; simpl;
    [reflexivity | f_equal; apply IH].
Qed.

Lemma rows_from_model_name n0 now name k es :
  map model_name (rows_from n0 now name k es)
  = map (fun e => format_value (entry_model e)) es.
Proof.
  revert n0 k. induction es as [|e es IH]; intros n0 k; simpl;
    [reflexivity | f_equal; apply IH].
Qed.

Lemma rows_from_message_type n0 now name k es :
  map message_type (rows_from n0 now name k es)
  = map (fun e => format_value (entry_type e)) es.
Proof.
  revert n0 k. induction es as [|e es IH]; intros n0 k; simpl;
    [reflexivity | f_equal; apply IH].
Qed.

Lemma insert_row_of n0 ts name k e :
  insert_row n0 ts name k e
  = if insertable name e then Done (row_of n0 ts name k e)
    else Raised (row_error name e).
Proof.
  unfold insertable, row_error, insert_row, row_of, entry_model, entry_type,
    entry_aspect, bind_parameter.
  destruct (utf8_encodable name); [| reflexivity].
  destruct (default (PyStr (str_lit "system")) (e_model e)) as [|m];
    destruct (default (PyStr (str_lit "message")) (e_type e)) as [|t];
    destruct (e_content e) as [|c];
    destruct (default PyNone (e_aspect e)) as [|a];
    repeat match goal with
           | |- context [utf8_encodable ?x] => destruct (utf8_encodable x)
           end; reflexivity.
Qed.

(** The insert loop commits all rows when the INSERT of every entry goes
    through and raises the exception of the first that does not
    otherwise. *)
Lemma insert_entries_rows es : forall conn now name k,
  insert_entries conn now name k es
  = if forallb (insertable name) es
    then Done (conn ++ rows_from (length conn) now name k es)
    else Raised (insert_error name es).
Proof.
  induction es as [|e es IH]; intros conn now name k; simpl.
  - rewrite app_nil_r. reflexivity.
  - rewrite insert_row_of. destruct (insertable name e); [| reflexivity].
    change (Done ?x ≫= ?f) with (f x). cbv beta.
    rewrite IH. cbn [andb]. destruct (forallb _ es); [| reflexivity].
    rewrite length_app. simpl.
    replace (length conn + 1)%nat with (S (length conn)) by lia.
    rewrite <- app_assoc. reflexivity.
Qed.

Lemma save_dialogue_to_db_rows db now name es :
  save_dialogue_to_db db now name es
  = if forallb (insertable name) es
    then (Done tt, db ++ rows_from (length db) now name 0 es)
    else (Raised (insert_error name es), db).
Proof.
  unfold save_dialogue_to_db. rewrite insert_entries_rows.
  destruct (forallb _ es); reflexivity.
Qed.

(** An entry whose INSERT goes through has strings for its speaker, kind
    and content. *)
Lemma insertable_strings name e :
  insertable name e = true ->
  exists m t c,
    entry_model e = PyStr m /\ entry_type e = PyStr t /\ e_content e = PyStr c.
Proof.
  unfold insertable, insert_row, entry_model, entry_type, bind_parameter.
  destruct (utf8_encodable name); [| discriminate].
  destruct (default (PyStr (str_lit "system")) (e_model e)) as [|m];
    destruct (default (PyStr (str_lit "message")) (e_type e)) as [|t];
    destruct (e_content e) as [|c];
    destruct (default PyNone (e_aspect e)) as [|a];
    repeat match goal with
           | |- context [utf8_encodable ?x] => destruct (utf8_encodable x)
           end; try discriminate; intros _; do 3 eexists;
    repeat split; reflexivity.
Qed.

Lemma insertable_values name e :
  insertable name e = true ->
  PyStr (format_value (entry_model e)) = entry_model e
  /\ PyStr (format_value (entry_type e)) = entry_type e
  /\ PyStr (format_value (e_content e)) = e_content e.
Proof.
  intros H. destruct (insertable_strings name e H) as (m & t & c & -> & -> & ->).
  repeat split; reflexivity.
Qed.

Lemma insert_error_kind name es :
  insert_error name es = IntegrityError
  \/ insert_error name es = UnicodeEncodeError.
Proof.
  induction es as [|e es IH]; simpl; [left; reflexivity |].
  destruct (insertable name e); [exact IH |].
  unfold row_error, insert_row, bind_parameter.
  destruct (utf8_encodable name); [| right; reflexivity].
  destruct (default (PyStr (str_lit "system")) (e_model e)) as [|m];
    destruct (default (PyStr (str_lit "message")) (e_type e)) as [|t];
    destruct (e_content e) as [|c];
    destruct (default PyNone (e_aspect e)) as [|a];
    repeat match goal with
           | |- context [utf8_encodable ?x] => destruct (utf8_encodable x)
           end; simpl; auto.
Qed.

(** C3, as the claim states it, fails: a run that has one stored entry, so
    that numbering should go on at 1, gets sequence number 0 again for the
    entry of a second call. *)
Lemma append_restarts_at_zero :
  let name := str_lit "run" in
  let db := snd (save_dialogue_to_db [] Sample.same_second name [Sample.one_entry]) in
  let db' := snd (save_dialogue_to_db db Sample.same_second name [Sample.one_entry]) in
  next_sequence_number db name = 1
  /\ map sequence_number (drop (length db) db') = [0].
Proof. split; vm_compute; reflexivity. Qed.

(** C3 (amended): a call [save_dialogue_to_db(test_name, dialogue_entries)]
    that commits adds one row per entry, in order, under the given run name,
    and numbers them 0, 1, ..., n-1 by their position in the call, whatever
    is stored for that run; a call that raises leaves the table as it was. *)
Theorem save_numbers_from_zero (db : database) (now : nat -> Z) (name : text)
    (dialogue_entries : list entry) :
  match save_dialogue_to_db db now name dialogue_entries with
  | (Done _, db') =>
      exists new,
        db' = db ++ new
        /\ map sequence_number new
           = map Z.of_nat (seq 0 (length dialogue_entries))
        /\ Forall (fun r => test_name r = name) new
        /\ map (fun r => PyStr (message_content r)) new
           = map e_content dialogue_entries
  | (Raised _, db') => db' = db
  end.
Proof.
  rewrite save_dialogue_to_db_rows.
  destruct (forallb _ dialogue_entries) eqn:Hstr; [| reflexivity].
  exists (rows_from (length db) now name 0 dialogue_entries).
  split; [reflexivity |].
  split; [apply rows_from_sequence_number |].
  split; [apply rows_from_test_name |].
  rewrite <- (map_map message_content PyStr), rows_from_message_content.
  rewrite map_map. apply map_ext_in. intros e He.
  rewrite forallb_forall in Hstr. specialize (Hstr e He).
  apply (insertable_values name e Hstr).
Qed.

(** ** The store: listing a run *)

Lemma filter_rows_from name' n0 now name k es :
  filter (fun r => test_name r = name') (rows_from n0 now name k es)
  = if decide (name = name') then rows_from n0 now name k es else [].
Proof.
  revert n0 k. induction es as [|e es IH]; intros n0 k; simpl.
  - destruct (decide (name = name')); reflexivity.
  - rewrite filter_cons, IH. simpl.
    destruct (decide (name = name')); reflexivity.
Qed.

(** Rows already in ascending order of sequence number are listed as they
    are. *)
Lemma sort_by_ascending (l : list row) : forall k,
  map sequence_number l = map Z.of_nat (seq k (length l)) ->
  sort_by (fun r1 r2 => sequence_number r1 <=? sequence_number r2) l = l.
Proof.
  induction l as [|x l IH]; intros k Hl; [reflexivity |].
  simpl in Hl. injection Hl as Hx Hl.
  unfold sort_by in *. simpl. rewrite (IH (S k) Hl).
  destruct l as [|y l']; [reflexivity |].
  simpl in Hl. injection Hl as Hy _. simpl.
  replace (sequence_number x <=? sequence_number y) with true; [reflexivity |].
  symmetry. apply Z.leb_le. lia.
Qed.

Lemma save_keeps_other_runs db now name es name' :
  name <> name' ->
  filter (fun r => test_name r = name') (snd (save_dialogue_to_db db now name es))
  = filter (fun r => test_name r = name') db.
Proof.
  intros Hne. rewrite save_dialogue_to_db_rows.
  destruct (forallb _ es); cbn [snd]; [| reflexivity].
  rewrite list.filter_app, filter_rows_from.
  destruct (decide (name = name')); [contradiction | apply app_nil_r].
Qed.

Lemma save_fresh_run_numbered db now name es :
  filter (fun r => test_name r = name) db = [] ->
  numbered_from_zero
    (filter (fun r => test_name r = name) (snd (save_dialogue_to_db db now name es))).
Proof.
  intros Hfresh. rewrite save_dialogue_to_db_rows.
  destruct (forallb _ es); simpl.
  - rewrite list.filter_app, filter_rows_from, Hfresh.
    destruct (decide (name = name)); [| contradiction]. simpl.
    unfold numbered_from_zero.
    rewrite rows_from_sequence_number, rows_from_length. reflexivity.
  - rewrite Hfresh. reflexivity.
Qed.

(** A run that at most one call of the sequence writes to, and that has no
    row before that call, stays numbered from zero. *)
Lemma run_saves_numbered (name : text) (calls : list save_call) : forall db,
  (length (filter (fun call : save_call => call.1.1 = name) calls) <= 1)%nat ->
  (filter (fun call : save_call => call.1.1 = name) calls <> [] ->
   filter (fun r => test_name r = name) db = []) ->
  numbered_from_zero (filter (fun r => test_name r = name) db) ->
  numbered_from_zero
    (filter (fun r => test_name r = name) (run_saves calls db)).
Proof.
  induction calls as [|[[nm now] es] calls IH]; intros db Hcount Hfresh Hnum.
  - exact Hnum.
  - rewrite filter_cons in Hcount, Hfresh. cbn [fst snd] in Hcount, Hfresh.
    simpl. destruct (decide (nm = name)) as [-> | Hne].
    + cbn [length] in Hcount.
      assert (filter (fun call : save_call => call.1.1 = name) calls = [])
        as Hrest by (apply length_zero_iff_nil; lia).
      apply IH.
      * rewrite Hrest. simpl. lia.
      * intros Hnot. rewrite Hrest in Hnot. contradiction.
      * apply save_fresh_run_numbered, Hfresh. discriminate.
    + apply IH; [exact Hcount | |].
      * intros Hsome. rewrite save_keeps_other_runs by exact Hne.
        apply Hfresh, Hsome.
      * rewrite save_keeps_other_runs by exact Hne. exact Hnum.
Qed.

(** C7, as the claim states it, fails: after two calls under one run name,
    each with one entry, the listing of that run has the sequence numbers
    0, 0 and not 0, 1. *)
Lemma listing_repeats_sequence_numbers :
  let name := str_lit "run" in
  let calls := [(name, Sample.same_second, [Sample.one_entry]);
                (name, Sample.same_second, [Sample.one_entry])] in
  let rows := get_dialogue_from_db (run_saves calls []) name in
  map sequence_number rows = [0; 0]
  /\ map sequence_number rows <> map Z.of_nat (seq 0 (length rows)).
Proof. split; vm_compute; [reflexivity | discriminate]. Qed.

(** C7 (amended): in a table filled from empty by calls of
    [save_dialogue_to_db], for every run that at most one of the calls
    writes to (a run written by a single call),
    [get_dialogue_from_db(test_name)] returns rows whose sequence numbers
    are exactly 0, 1, ..., k-1, in that order. *)
Theorem listing_is_numbered_from_zero (calls : list save_call) (name : text) :
  (length (filter (fun call : save_call => call.1.1 = name) calls) <= 1)%nat ->
  let rows := get_dialogue_from_db (run_saves calls []) name in
  map sequence_number rows = map Z.of_nat (seq 0 (length rows)).
Proof.
  intros Hcount rows. subst rows. unfold get_dialogue_from_db, select_dialogue.
  assert (numbered_from_zero
            (filter (fun r => test_name r = name) (run_saves calls [])))
    as Hnum.
  { apply run_saves_numbered; [exact Hcount | reflexivity | reflexivity]. }
  rewrite (sort_by_ascending _ 0%nat Hnum). exact Hnum.
Qed.

Lemma listing_is_numbered_from_zero_witness :
  let calls := [(str_lit "run_b", Sample.same_second, [Sample.one_entry]);
                (str_lit "run_a", Sample.ticking,
                 [Sample.one_entry; Sample.one_entry; Sample.one_entry]);
                (str_lit "run_b", Sample.same_second, [Sample.one_entry])] in
  let rows := get_dialogue_from_db (run_saves calls []) (str_lit "run_a") in
  map sequence_number rows = map Z.of_nat (seq 0 (length rows)).
Proof.
  apply (listing_is_numbered_from_zero
           [(str_lit "run_b", Sample.same_second, [Sample.one_entry]);
            (str_lit "run_a", Sample.ticking,
             [Sample.one_entry; Sample.one_entry; Sample.one_entry]);
            (str_lit "run_b", Sample.same_second, [Sample.one_entry])]
           (str_lit "run_a")).
  vm_compute. lia.
Defined.

(** ** The store: the latest tests *)

Section InsertionSort.

Context {A : Type} (le : A -> A -> bool).

Hypothesis le_total : forall x y, le x y = true \/ le y x = true.
Hypothesis le_trans : forall x y z, le x y = true -> le y z = true -> le x z = true.

Lemma insert_by_perm (x : A) (l : list A) : insert_by le x l ≡ₚ x :: l.
Proof.
  induction l as [|y l IH]; simpl; [reflexivity |].
  destruct (le x y); [reflexivity |].
  rewrite IH. apply Permutation_swap.
Qed.

Lemma sort_by_perm (l : list A) : sort_by le l ≡ₚ l.
Proof.
  unfold sort_by. induction l as [|x l IH]; simpl; [reflexivity |].
  rewrite insert_by_perm, IH. reflexivity.
Qed.

Lemma insert_by_sorted (x : A) (l : list A) :
  StronglySorted (fun a b => le a b = true) l ->
  StronglySorted (fun a b => le a b = true) (insert_by le x l).
Proof.
  induction l as [|y l IH]; intros Hl; simpl.
  - repeat constructor.
  - apply StronglySorted_inv in Hl as [Hl Hy].
    destruct (le x y) eqn:Hxy.
    + constructor; [constructor; assumption |].
      constructor; [exact Hxy |].
      eapply Forall_impl; [exact Hy |]. intros z Hz. simpl in Hz.
      apply (le_trans x y z Hxy Hz).
    + constructor; [apply IH, Hl |].
      rewrite insert_by_perm. constructor; [| exact Hy].
      destruct (le_total x y) as [H | H]; [congruence | exact H].
Qed.

Lemma sort_by_sorted (l : list A) :
  StronglySorted (fun a b => le a b = true) (sort_by le l).
Proof.
  unfold sort_by. induction l as [|x l IH]; simpl; [constructor |].
  apply insert_by_sorted, IH.
Qed.

End InsertionSort.

Lemma StronglySorted_weaken {A : Type} (R1 R2 : A -> A -> Prop) (l : list A) :
  (forall x y, R1 x y -> R2 x y) -> StronglySorted R1 l -> StronglySorted R2 l.
Proof.
  intros Himpl Hl. induction Hl as [|x l Hl IH Hx]; constructor.
  - exact IH.
  - eapply Forall_impl; [exact Hx | intros y; apply Himpl].
Qed.

(** What the query for the latest tests returns on any table: at most five
    pairs of a run name and a timestamp of one of its rows, no pair twice,
    the later timestamp first, and no pair left out is later than one
    returned.  The run names are pairwise different when all rows of a run
    carry one timestamp. *)
Lemma select_latest_tests_sound (db : database) :
  let pairs := map (fun r => (test_name r, timestamp r)) db in
  let tests := select_latest_tests db in
  (length tests <= 5)%nat
  /\ StronglySorted (fun p q : text * Z => snd q <= snd p) tests
  /\ NoDup tests
  /\ (forall p, p ∈ tests -> p ∈ pairs)
  /\ (forall p q, p ∈ pairs -> p ∉ tests -> q ∈ tests -> snd p <= snd q)
  /\ ((forall r1 r2, r1 ∈ db -> r2 ∈ db -> test_name r1 = test_name r2 ->
                     timestamp r1 = timestamp r2) ->
      NoDup (map fst tests)).
Proof.
  intros pairs tests.
  set (le := fun p1 p2 : text * Z => snd p2 <=? snd p1).
  set (sorted := sort_by le (remove_dups pairs)).
  assert (tests = take 5 sorted) as Htests by reflexivity.
  assert (forall x y, le x y = true \/ le y x = true) as Htotal
    by (intros x y; unfold le; lia).
  assert (forall x y z, le x y = true -> le y z = true -> le x z = true)
    as Htrans by (intros x y z; unfold le; lia).
  assert (sorted ≡ₚ remove_dups pairs) as Hperm by apply sort_by_perm.
  assert (StronglySorted (fun p q : text * Z => snd q <= snd p) sorted)
    as Hsorted.
  { eapply StronglySorted_weaken; [| apply (sort_by_sorted le Htotal Htrans)].
    intros p q. unfold le. simpl. lia. }
  assert (NoDup sorted) as Hnd
    by (rewrite Hperm; apply NoDup_remove_dups).
  assert (forall p, p ∈ sorted <-> p ∈ pairs) as Hin
    by (intros p; rewrite Hperm; apply elem_of_remove_dups).
  assert (forall p, p ∈ tests -> p ∈ sorted) as Hsub.
  { intros p Hp. rewrite Htests in Hp.
    apply (subseteq_take 5 sorted p Hp). }
  split; [rewrite Htests, length_take; lia |].
  split.
  { rewrite <- (take_drop 5 sorted) in Hsorted. rewrite Htests.
    apply StronglySorted_app_1_l in Hsorted. exact Hsorted. }
  assert (NoDup tests) as Hndt
    by (rewrite Htests; apply (sublist_NoDup _ _ Hnd (sublist_take _ _))).
  split; [exact Hndt |].
  split; [intros p Hp; apply Hin, Hsub, Hp |].
  split.
  { intros p q Hp Hout Hq. apply Hin in Hp.
    rewrite <- (take_drop 5 sorted) in Hp, Hsorted. rewrite <- Htests in Hp, Hsorted.
    apply elem_of_app in Hp as [Hp | Hp]; [contradiction |].
    apply (StronglySorted_app_1_elem_of _ _ _ q p Hsorted Hq Hp). }
  intros Hone.
  change (NoDup (fst <$> tests)). apply NoDup_fmap_2_strong.
  - intros [n1 t1] [n2 t2] H1 H2 Heq. simpl in Heq. subst n2.
    apply Hsub, Hin, list_elem_of_In, in_map_iff in H1 as (r1 & Hr1 & Hin1).
    apply Hsub, Hin, list_elem_of_In, in_map_iff in H2 as (r2 & Hr2 & Hin2).
    injection Hr1 as Hn1 Ht1. injection Hr2 as Hn2 Ht2.
    f_equal. rewrite <- Ht1, <- Ht2.
    apply Hone; [apply list_elem_of_In, Hin1 | apply list_elem_of_In, Hin2 | congruence].
  - exact Hndt.
Qed.

(** C8 at a failing input: one call stores two entries of a run while the
    clock moves from one second to the next; the query for the latest tests
    then lists that run twice, once for each timestamp, and
    [view_latest_test_results] goes through its dialogue twice. *)
Theorem latest_tests_lists_a_run_twice :
  let name := str_lit "run" in
  let db := snd (save_dialogue_to_db [] Sample.ticking name
                   [Sample.one_entry; Sample.one_entry]) in
  select_latest_tests db = [(name, 1735732801); (name, 1735732800)]
  /\ map (fun t => fst (fst t)) (view_latest_test_results db) = [name; name]
  /\ ~ NoDup (map fst (select_latest_tests db)).
Proof.
  split; [vm_compute; reflexivity |].
  split; [vm_compute; reflexivity |].
  intros Hnd. vm_compute in Hnd. apply list.NoDup_cons in Hnd as [Hnotin _].
  apply Hnotin. apply list_elem_of_here.
Qed.

(** ** Plan A: the round-robin discussion *)

Lemma join_strings (sep : text) (ts : list text) :
  join sep (map PyStr ts) = Done (join_text sep ts).
Proof.
  induction ts as [|t ts IH]; [reflexivity |].
  destruct ts as [|t' ts]; [reflexivity |].
  change (join sep (map PyStr (t :: t' :: ts)))
    with (join sep (map PyStr (t' :: ts)) ≫= fun tl => Done (t ++ sep ++ tl)).
  rewrite IH. reflexivity.
Qed.

Lemma transcript_contents (ms ss : list text) :
  length ms = length ss ->
  map e_content (topic_entry :: zip_with response_entry ms ss)
  = map PyStr (topic :: ss).
Proof.
  intros Hlen. cbn [map topic_entry e_content]. f_equal.
  revert ss Hlen. induction ms as [|m ms IH]; intros [|s ss] Hlen;
    try discriminate; [reflexivity |].
  cbn [zip_with map response_entry e_content]. f_equal. apply IH.
  simpl in Hlen. lia.
Qed.

Lemma transcript_texts (ms ss : list text) :
  length ms = length ss ->
  map (fun e => format_value (e_content e))
      (topic_entry :: zip_with response_entry ms ss)
  = topic :: ss.
Proof.
  intros Hlen. cbn [map topic_entry e_content format_value]. f_equal.
  revert ss Hlen. induction ms as [|m ms IH]; intros [|s ss] Hlen;
    try discriminate; [reflexivity |].
  cbn [zip_with map response_entry e_content format_value]. f_equal. apply IH.
  simpl in Hlen. lia.
Qed.

Lemma response_entries_model (ms ss : list text) :
  length ss = length ms ->
  map (fun e => format_value (entry_model e))
      (zip_with response_entry ms ss) = ms.
Proof.
  revert ss. induction ms as [|m ms IH]; intros [|s ss] Hlen; simpl in *;
    try discriminate; [reflexivity |].
  f_equal. apply IH. lia.
Qed.

Lemma response_entries_type (ms ss : list text) :
  length ss = length ms ->
  map (fun e => format_value (entry_type e))
      (zip_with response_entry ms ss)
  = repeat (str_lit "response") (length ms).
Proof.
  revert ss. induction ms as [|m ms IH]; intros [|s ss] Hlen; simpl in *;
    try discriminate; [reflexivity |].
  f_equal. apply IH. lia.
Qed.

Section PlanA.

Variable isalpha : Z -> bool.
Variable cl : clients.

Lemma check_response_Done (model : text) (response : pyval) (s : text) :
  check_response isalpha model response = Done s <->
  response = PyStr s /\ (0 <? length s)%nat = true
  /\ existsb isalpha s = true /\ re_search_russian s = true.
Proof.
  unfold check_response. destruct response as [|t].
  { split; [discriminate | intros [? _]; discriminate]. }
  assertion_chain.
Qed.

Lemma discussion_turn_Done (model : text) (tick : nat) (es : list entry)
    (st' : nat * list entry) :
  discussion_turn isalpha cl model (tick, es) = Done st' ->
  exists s, st' = (S tick, es ++ [response_entry model s]).
Proof.
  unfold discussion_turn. intros H.
  apply bind_Done in H as (context & _ & H).
  apply bind_Done in H as (s & _ & H).
  injection H as <-. exists s. reflexivity.
Qed.

(** A run of turns that ends normally has appended one response entry for
    each model of the list, in the order of the list. *)
Lemma discussion_turns_Done (ms : list text) : forall tick es tick' es',
  for_each ms (discussion_turn isalpha cl) (tick, es) = Done (tick', es') ->
  exists ss,
    length ss = length ms
    /\ es' = es ++ zip_with response_entry ms ss.
Proof.
  induction ms as [|m ms IH]; intros tick es tick' es' H.
  - injection H as <- <-. exists []. rewrite app_nil_r. split; reflexivity.
  - rewrite for_each_cons in H. apply bind_Done in H as (st1 & Hturn & H).
    apply discussion_turn_Done in Hturn as (s & ->).
    apply IH in H as (ss & Hlen & ->).
    exists (s :: ss). simpl. rewrite Hlen, <- app_assoc. split; reflexivity.
Qed.

Lemma discussion_rounds_Done (tick : nat) (es : list entry) :
  discussion_rounds isalpha cl = Done (tick, es) ->
  exists ss,
    length ss = 9%nat
    /\ es = topic_entry :: zip_with response_entry (models ++ models ++ models) ss.
Proof.
  unfold discussion_rounds. rewrite for_each_nested. intros H.
  apply discussion_turns_Done in H as (ss & Hlen & ->).
  exists ss. split; [exact Hlen | reflexivity].
Qed.

(** A turn on a transcript of accepted responses: the backend gets the
    topic and the responses so far, joined by newlines. *)
Lemma discussion_turn_on_transcript (m : text) (pre_m pre_s : list text) :
  length pre_m = length pre_s ->
  discussion_turn isalpha cl m
    (length pre_s, topic_entry :: zip_with response_entry pre_m pre_s)
  = check_response isalpha m
      (get_model_response cl (length pre_s) m
         (discussion_prompt (join_text nl (topic :: pre_s))))
    ≫= fun s =>
         Done (length (pre_s ++ [s]),
               topic_entry :: zip_with response_entry (pre_m ++ [m]) (pre_s ++ [s])).
Proof.
  intros Hlen. unfold discussion_turn.
  rewrite (transcript_contents pre_m pre_s Hlen), join_strings.
  change (Done (join_text nl (topic :: pre_s)) ≫= ?f)
    with (f (join_text nl (topic :: pre_s))).
  cbv beta zeta.
  destruct (check_response isalpha m _) as [s|e]; [| reflexivity].
  change (Done s ≫= ?f) with (f s). cbv beta.
  rewrite (zip_with_app response_entry pre_m [m] pre_s [s] Hlen).
  rewrite length_app. cbn [length]. f_equal. f_equal. lia.
Qed.

Lemma discussion_loop_Done (ms : list text) : forall pre_m pre_s st',
  length pre_m = length pre_s ->
  for_each ms (discussion_turn isalpha cl)
    (length pre_s, topic_entry :: zip_with response_entry pre_m pre_s)
  = Done st' ->
  exists ss,
    length ss = length ms
    /\ st' = (length (pre_s ++ ss),
              topic_entry :: zip_with response_entry (pre_m ++ ms) (pre_s ++ ss))
    /\ forall i m s, ms !! i = Some m -> ss !! i = Some s ->
         check_response isalpha m
           (get_model_response cl (length pre_s + i) m
              (discussion_prompt (join_text nl (topic :: pre_s ++ take i ss))))
         = Done s.
Proof.
  induction ms as [|m ms IH]; intros pre_m pre_s st' Hlen H.
  - injection H as <-. exists []. rewrite !app_nil_r.
    split; [reflexivity |]. split; [reflexivity |].
    intros i m s Hm. destruct i; discriminate.
  - rewrite for_each_cons, (discussion_turn_on_transcript m pre_m pre_s Hlen)
      in H.
    apply bind_Done in H as (st1 & Hturn & H).
    apply bind_Done in Hturn as (s & Hs & Hst1). injection Hst1 as <-.
    apply IH in H as (ss & Hss & -> & Hflow);
      [| rewrite !length_app; cbn [length]; lia].
    exists (s :: ss). split; [cbn [length]; lia |].
    split; [rewrite <- !app_assoc; reflexivity |].
    intros [|i] m' s' Hm' Hs'.
    + injection Hm' as <-. injection Hs' as <-.
      rewrite Nat.add_0_r. cbn [take]. rewrite app_nil_r. exact Hs.
    + specialize (Hflow i m' s' Hm' Hs').
      rewrite length_app in Hflow. cbn [length] in Hflow.
      replace (length pre_s + 1 + i)%nat with (length pre_s + S i)%nat
        in Hflow by lia.
      rewrite <- app_assoc in Hflow. exact Hflow.
Qed.

Lemma discussion_loop_Raised (ms : list text) : forall pre_m pre_s e,
  length pre_m = length pre_s ->
  for_each ms (discussion_turn isalpha cl)
    (length pre_s, topic_entry :: zip_with response_entry pre_m pre_s)
  = Raised e ->
  exists i m ss,
    ms !! i = Some m
    /\ length ss = i
    /\ (forall j m' s', ms !! j = Some m' -> ss !! j = Some s' ->
          check_response isalpha m'
            (get_model_response cl (length pre_s + j) m'
               (discussion_prompt (join_text nl (topic :: pre_s ++ take j ss))))
          = Done s')
    /\ check_response isalpha m
         (get_model_response cl (length pre_s + i) m
            (discussion_prompt (join_text nl (topic :: pre_s ++ ss))))
       = Raised e.
Proof.
  induction ms as [|m ms IH]; intros pre_m pre_s e Hlen H; [discriminate |].
  rewrite for_each_cons, (discussion_turn_on_transcript m pre_m pre_s Hlen) in H.
  apply bind_Raised in H as [H | (st1 & Hturn & H)].
  - apply bind_Raised in H as [H | (s & _ & H)]; [| discriminate].
    exists 0%nat, m, []. rewrite Nat.add_0_r, app_nil_r.
    split; [reflexivity |]. split; [reflexivity |].
    split; [intros j m' s' _ Hs'; destruct j; discriminate | exact H].
  - apply bind_Done in Hturn as (s & Hs & Hst1). injection Hst1 as <-.
    apply IH in H as (i & m' & ss & Hm' & Hi & Hacc & Hfail);
      [| rewrite !length_app; cbn [length]; lia].
    rewrite length_app in Hacc, Hfail. cbn [length] in Hacc, Hfail.
    exists (S i), m', (s :: ss).
    split; [exact Hm' |]. split; [cbn [length]; lia |]. split.
    + intros [|j] mj sj Hmj Hsj.
      * injection Hmj as <-. injection Hsj as <-.
        rewrite Nat.add_0_r. cbn [take]. rewrite app_nil_r. exact Hs.
      * specialize (Hacc j mj sj Hmj Hsj).
        replace (length pre_s + 1 + j)%nat with (length pre_s + S j)%nat
          in Hacc by lia.
        rewrite <- app_assoc in Hacc. exact Hacc.
    + replace (length pre_s + 1 + i)%nat with (length pre_s + S i)%nat
        in Hfail by lia.
      rewrite <- app_assoc in Hfail. exact Hfail.
Qed.

Lemma check_response_Raised (model : text) (response : pyval) (e : exn) :
  check_response isalpha model response = Raised e ->
  exists reason,
    reason ∈ response_failures
    /\ e = AssertionError (str_lit "Response from " ++ model ++ reason).
Proof.
  unfold check_response, response_failures. destruct response as [|t].
  { intros H. injection H as <-. eexists. split; [| reflexivity].
    apply list_elem_of_here. }
  rewrite !assert_bind.
  destruct (0 <? length t)%nat.
  2:{ intros H. injection H as <-. eexists. split; [| reflexivity].
      apply list_elem_of_further, list_elem_of_here. }
  destruct (existsb isalpha t).
  2:{ intros H. injection H as <-. eexists. split; [| reflexivity].
      do 2 apply list_elem_of_further. apply list_elem_of_here. }
  destruct (re_search_russian t); [discriminate |].
  intros H. injection H as <-. eexists. split; [| reflexivity].
  do 3 apply list_elem_of_further. apply list_elem_of_here.
Qed.

(** C6: a run of plan A (three backends, three rounds) that succeeds has
    added exactly 10 rows under its run name: the seed and 9 responses, with
    the sequence numbers 0 to 9 in increasing order, each round going through
    the backends in the configured order; when the run name was not in use,
    these 10 rows are the stored transcript of the run.  The content of the
    first row is the topic, and the content of row i+1 is what the backend of
    turn i, asked with the topic and the responses of the turns before it,
    has returned: a string that passes the four assertions. *)
Theorem round_robin_stores_ten_entries (now : nat -> Z) (stamp : text)
    (db db' : database) :
  test_russian_dialogue isalpha cl now stamp db = (Done tt, db') ->
  let name := str_lit "russian_dialogue_" ++ stamp in
  exists new,
    db' = db ++ new
    /\ length new = 10%nat
    /\ Forall (fun r => test_name r = name) new
    /\ map sequence_number new = [0; 1; 2; 3; 4; 5; 6; 7; 8; 9]
    /\ map model_name new = str_lit "system" :: models ++ models ++ models
    /\ map message_type new
       = str_lit "topic" :: repeat (str_lit "response") 9
    /\ (filter (fun r => test_name r = name) db = [] ->
        get_dialogue_from_db db' name = new)
    /\ exists ss,
         length ss = 9%nat
         /\ map message_content new = topic :: ss
         /\ forall i m s,
              (models ++ models ++ models) !! i = Some m ->
              ss !! i = Some s ->
              get_model_response cl i m
                (discussion_prompt (join_text nl (topic :: take i ss)))
              = PyStr s
              /\ (0 <? length s)%nat = true
              /\ existsb isalpha s = true
              /\ re_search_russian s = true.
Proof.
  intros H name. unfold test_russian_dialogue in H.
  destruct (discussion_rounds isalpha cl) as [[tick es]|e] eqn:Hrounds;
    [| discriminate].
  unfold discussion_rounds in Hrounds. rewrite for_each_nested in Hrounds.
  apply (discussion_loop_Done _ [] [] _ eq_refl) in Hrounds
    as (ss & Hlen & Hst & Hflow).
  rewrite !app_nil_l in Hst.
  change (concat (map (fun _ : nat => models) (seq 0 3)))
    with (models ++ models ++ models) in *.
  assert (es = topic_entry
                 :: zip_with response_entry (models ++ models ++ models) ss)
    as -> by congruence.
  clear Hst. fold name in H.
  set (es := topic_entry :: zip_with response_entry (models ++ models ++ models) ss)
    in *.
  assert (length es = 10%nat) as Hes.
  { subst es. cbn [length]. rewrite length_zip_with, Hlen. reflexivity. }
  revert H. rewrite save_dialogue_to_db_rows.
  destruct (forallb (insertable name) es); intros H; [| discriminate].
  apply (f_equal snd) in H. cbn [snd] in H. subst db'.
  exists (rows_from (length db) now name 0 es).
  split; [reflexivity |].
  split; [rewrite rows_from_length; exact Hes |].
  split; [apply rows_from_test_name |].
  split; [rewrite rows_from_sequence_number, Hes; reflexivity |].
  split.
  { rewrite rows_from_model_name. subst es. cbn [map].
    rewrite response_entries_model by (rewrite Hlen; reflexivity). reflexivity. }
  split.
  { rewrite rows_from_message_type. subst es. cbn [map].
    rewrite response_entries_type by (rewrite Hlen; reflexivity). reflexivity. }
  split.
  { intros Hfresh. unfold get_dialogue_from_db, select_dialogue.
    rewrite list.filter_app, filter_rows_from, Hfresh.
    destruct (decide (name = name)); [| contradiction]. cbn [app].
    apply (sort_by_ascending _ 0%nat).
    rewrite rows_from_sequence_number, rows_from_length. reflexivity. }
  exists ss. split; [exact Hlen |]. split.
  { rewrite rows_from_message_content. subst es.
    apply transcript_texts. rewrite Hlen. reflexivity. }
  intros i m s Hm Hs.
  apply (proj1 (check_response_Done m _ s)). exact (Hflow i m s Hm Hs).
Qed.

End PlanA.

Lemma round_robin_stores_ten_entries_witness :
  let name := str_lit "russian_dialogue_" ++ Sample.stamp in
  let db' :=
    snd (test_russian_dialogue Sample.isalpha Sample.cooperative
           Sample.ticking Sample.stamp []) in
  exists new,
    db' = [] ++ new
    /\ length new = 10%nat
    /\ Forall (fun r => test_name r = name) new
    /\ map sequence_number new = [0; 1; 2; 3; 4; 5; 6; 7; 8; 9]
    /\ map model_name new = str_lit "system" :: models ++ models ++ models
    /\ map message_type new
       = str_lit "topic" :: repeat (str_lit "response") 9
    /\ (filter (fun r => test_name r = name) [] = [] ->
        get_dialogue_from_db db' name = new)
    /\ exists ss,
         length ss = 9%nat
         /\ map message_content new = topic :: ss
         /\ forall i m s,
              (models ++ models ++ models) !! i = Some m ->
              ss !! i = Some s ->
              get_model_response Sample.cooperative i m
                (discussion_prompt (join_text nl (topic :: take i ss)))
              = PyStr s
              /\ (0 <? length s)%nat = true
              /\ existsb Sample.isalpha s = true
              /\ re_search_russian s = true.
Proof.
  apply (round_robin_stores_ten_entries Sample.isalpha Sample.cooperative
           Sample.ticking Sample.stamp []).
  vm_compute. reflexivity.
Defined.

(** ** Plan B: the partitioned task and its synthesis *)

Lemma check_aspect_response_Done (model : text) (response : pyval) (s : text) :
  check_aspect_response model response = Done s <->
  response = PyStr s /\ (0 <? length s)%nat = true
  /\ re_search_russian s = true.
Proof.
  unfold check_aspect_response. destruct response as [|t].
  { split; [discriminate | intros [? _]; discriminate]. }
  assertion_chain.
Qed.

Lemma check_final_response_Done (model : text) (response : pyval) (s : text) :
  check_final_response model response = Done s <->
  response = PyStr s /\ (0 <? length s)%nat = true
  /\ re_search_russian s = true
  /\ (min_words <=? length (split s))%nat = true.
Proof.
  unfold check_final_response. destruct response as [|t].
  { split; [discriminate | intros [? _]; discriminate]. }
  assertion_chain.
Qed.

Lemma aspect_turn_Done (cl : clients) (model aspect : text) (tick : nat)
    (responses : gmap text pyval) (es : list entry) (st' : task_state) :
  aspect_turn cl (model, aspect) (tick, responses, es) = Done st' <->
  exists s,
    check_aspect_response model
      (get_model_response cl tick model (aspect_prompt aspect)) = Done s
    /\ st' = (S tick, <[model := PyStr s]> responses,
              es ++ [aspect_entry model aspect (PyStr s)]).
Proof.
  unfold aspect_turn. cbv zeta. rewrite bind_Done. split.
  - intros (s & Hs & Heq). exists s. split; [exact Hs |].
    apply check_aspect_response_Done in Hs as (Hr & _).
    rewrite Hr in Heq. congruence.
  - intros (s & Hs & ->). exists s. split; [exact Hs |].
    apply check_aspect_response_Done in Hs as (Hr & _).
    rewrite Hr. reflexivity.
Qed.

Lemma final_turn_Done (cl : clients) (prompt model : text) (tick : nat)
    (responses : gmap text pyval) (es : list entry) (st' : task_state) :
  final_turn cl prompt model (tick, responses, es) = Done st' <->
  exists s,
    check_final_response model (get_model_response cl tick model prompt) = Done s
    /\ st' = (S tick, <[final_key model := PyStr s]> responses,
              es ++ [final_entry model (PyStr s)]).
Proof.
  unfold final_turn. cbv zeta. rewrite bind_Done. split.
  - intros (s & Hs & Heq). exists s. split; [exact Hs |].
    apply check_final_response_Done in Hs as (Hr & _).
    rewrite Hr in Heq. congruence.
  - intros (s & Hs & ->). exists s. split; [exact Hs |].
    apply check_final_response_Done in Hs as (Hr & _).
    rewrite Hr. reflexivity.
Qed.

(** The state in which the two loops of plan B end: six adapter calls, the
    dictionary with the three aspect and the three final responses, and the
    seven entries. *)
Lemma task_turns_Done (cl : clients) (st : task_state) :
  task_turns cl = Done st ->
  exists a1 a2 a3 f1 f2 f3 : text,
    st = (6%nat,
          <[final_key (str_lit "gigachat") := PyStr f3]>
            (<[final_key (str_lit "ollama") := PyStr f2]>
               (<[final_key (str_lit "openai") := PyStr f1]>
                  (<[str_lit "gigachat" := PyStr a3]>
                     (<[str_lit "ollama" := PyStr a2]>
                        (<[str_lit "openai" := PyStr a1]> ∅))))),
          [task_entry;
           aspect_entry (str_lit "openai")
             (str_lit "technical aspect of the platform") (PyStr a1);
           aspect_entry (str_lit "ollama")
             (str_lit "pedagogical aspect of the platform") (PyStr a2);
           aspect_entry (str_lit "gigachat")
             (str_lit "user experience aspect") (PyStr a3);
           final_entry (str_lit "openai") (PyStr f1);
           final_entry (str_lit "ollama") (PyStr f2);
           final_entry (str_lit "gigachat") (PyStr f3)]).
Proof.
  unfold task_turns, aspects, models. intros H.
  apply bind_Done in H as (st1 & Haspects & H).
  apply bind_Done in H as (prompt & _ & Hfinals).
  rewrite !for_each_cons in Haspects.
  apply bind_Done in Haspects as (sa & H1 & Haspects).
  apply aspect_turn_Done in H1 as (a1 & _ & ->).
  apply bind_Done in Haspects as (sb & H2 & Haspects).
  apply aspect_turn_Done in H2 as (a2 & _ & ->).
  apply bind_Done in Haspects as (sc & H3 & Haspects).
  apply aspect_turn_Done in H3 as (a3 & _ & ->).
  injection Haspects as <-.
  rewrite !for_each_cons in Hfinals.
  apply bind_Done in Hfinals as (sd & H4 & Hfinals).
  apply final_turn_Done in H4 as (f1 & _ & ->).
  apply bind_Done in Hfinals as (se & H5 & Hfinals).
  apply final_turn_Done in H5 as (f2 & _ & ->).
  apply bind_Done in Hfinals as (sf & H6 & Hfinals).
  apply final_turn_Done in H6 as (f3 & _ & ->).
  injection Hfinals as <-.
  exists a1, a2, a3, f1, f2, f3. reflexivity.
Qed.

Lemma size_list_to_set_le (l : list pyval) :
  (size (list_to_set l : gset pyval) <= length l)%nat.
Proof.
  induction l as [|x l IH].
  - rewrite list_to_set_nil, size_empty. reflexivity.
  - rewrite list_to_set_cons, size_union_alt, size_singleton. cbn [length].
    assert (size (list_to_set l ∖ {[x]} : gset pyval)
            <= size (list_to_set l : gset pyval))%nat
      by (apply subseteq_size, subseteq_difference_l; reflexivity).
    lia.
Qed.

(** [len(set(l)) == len(l)] holds exactly when no two items of [l] are
    equal. *)
Lemma size_list_to_set_NoDup (l : list pyval) :
  size (list_to_set l : gset pyval) = length l <-> NoDup l.
Proof.
  split; [| apply size_list_to_set].
  induction l as [|x l IH]; intros Hsize; [constructor |].
  rewrite list_to_set_cons in Hsize. cbn [length] in Hsize.
  destruct (decide (x ∈ l)) as [Hin|Hnotin].
  - exfalso.
    assert (({[x]} ∪ list_to_set l : gset pyval) = list_to_set l) as Heq
      by (apply subseteq_union_1_L, singleton_subseteq_l, elem_of_list_to_set,
            Hin).
    rewrite Heq in Hsize. pose proof (size_list_to_set_le l). lia.
  - apply list.NoDup_cons. split; [exact Hnotin |]. apply IH.
    rewrite size_union in Hsize
      by (apply disjoint_singleton_l; rewrite elem_of_list_to_set; exact Hnotin).
    rewrite size_singleton in Hsize. lia.
Qed.

Lemma final_responses_after_turns (a1 a2 a3 f1 f2 f3 : text) :
  final_responses
    (<[final_key (str_lit "gigachat") := PyStr f3]>
       (<[final_key (str_lit "ollama") := PyStr f2]>
          (<[final_key (str_lit "openai") := PyStr f1]>
             (<[str_lit "gigachat" := PyStr a3]>
                (<[str_lit "ollama" := PyStr a2]>
                   (<[str_lit "openai" := PyStr a1]> ∅))))))
  = Done [PyStr f1; PyStr f2; PyStr f3].
Proof. vm_compute. reflexivity. Qed.

(** Once both loops have ended normally, the store call decides whether
    the last assertion is reached. *)
Lemma task_solving_after_turns (cl : clients) (now : nat -> Z) (stamp : text)
    (db : database) (st : task_state) :
  task_turns cl = Done st ->
  test_task_solving_dialogue cl now stamp db
  = if forallb (insertable (str_lit "task_solving_" ++ stamp)) (st.2)
    then (check_unique (st.1.2),
          db ++ rows_from (length db) now (str_lit "task_solving_" ++ stamp) 0
                  (st.2))
    else (Raised (insert_error (str_lit "task_solving_" ++ stamp) (st.2)), db).
Proof.
  intros H. unfold test_task_solving_dialogue. rewrite H.
  destruct st as [[tick responses] es]. cbn [fst snd].
  rewrite save_dialogue_to_db_rows.
  destruct (forallb _ es); reflexivity.
Qed.

(** Entries whose speaker, kind and content are strings fail to be stored
    only on a string that cannot be encoded. *)
Lemma insert_error_of_strings (name : text) (es : list entry) :
  Forall (fun e => exists m t c,
            entry_model e = PyStr m /\ entry_type e = PyStr t
            /\ e_content e = PyStr c) es ->
  forallb (insertable name) es = false ->
  insert_error name es = UnicodeEncodeError.
Proof.
  induction es as [|e es IH]; intros Hall Hfail; [discriminate |].
  apply Forall_cons in Hall as [(m & t & c & Hm & Ht & Hc) Hall].
  cbn [forallb insert_error] in *.
  destruct (insertable name e) eqn:He; [apply IH; assumption |].
  clear IH Hfail. revert He.
  unfold insertable, row_error, insert_row, bind_parameter.
  fold (entry_model e) (entry_type e). rewrite Hm, Ht, Hc.
  destruct (utf8_encodable name); [| reflexivity].
  destruct (default PyNone (e_aspect e)) as [|a];
    repeat match goal with
           | |- context [utf8_encodable ?x] => destruct (utf8_encodable x)
           end; simpl; intros; first [reflexivity | discriminate].
Qed.

Lemma task_entries_are_strings (cl : clients) (st : task_state) :
  task_turns cl = Done st ->
  Forall (fun e => exists m t c,
            entry_model e = PyStr m /\ entry_type e = PyStr t
            /\ e_content e = PyStr c) (st.2).
Proof.
  intros H. destruct (task_turns_Done cl st H) as (a1 & a2 & a3 & f1 & f2 & f3 & ->).
  cbn [snd]. repeat constructor; do 3 eexists; repeat split; reflexivity.
Qed.

Lemma check_unique_after_turns (cl : clients) (st : task_state) :
  task_turns cl = Done st ->
  exists finals,
    final_responses (st.1.2) = Done finals
    /\ map e_content (drop 4 (st.2)) = finals
    /\ length finals = length models
    /\ check_unique (st.1.2)
       = py_assert (size (list_to_set finals : gset pyval) =? length models)%nat
           unique_msg.
Proof.
  intros H. destruct (task_turns_Done cl st H) as (a1 & a2 & a3 & f1 & f2 & f3 & ->).
  exists [PyStr f1; PyStr f2; PyStr f3]. cbn [fst snd].
  split; [apply final_responses_after_turns |].
  split; [reflexivity |]. split; [reflexivity |].
  unfold check_unique. rewrite final_responses_after_turns. reflexivity.
Qed.

(** C5, as the claim states it, fails: three backends give one and the same
    final response, which holds a lone surrogate; each response passes the
    assertions of its turn, the store call that comes before the uniqueness
    assertion cannot encode the text, and the run aborts with the encoding
    error and not with the uniqueness failure. *)
Lemma equal_final_responses_without_uniqueness_failure :
  let st := Sample.state_of Sample.broken_parrots in
  let run :=
    test_task_solving_dialogue Sample.broken_parrots Sample.ticking
      Sample.stamp [] in
  task_turns Sample.broken_parrots = Done st
  /\ map e_content (drop 4 (st.2))
     = [PyStr Sample.broken_words; PyStr Sample.broken_words;
        PyStr Sample.broken_words]
  /\ run = (Raised UnicodeEncodeError, [])
  /\ fst run <> Raised (AssertionError unique_msg).
Proof.
  split; [vm_compute; reflexivity |].
  split; [vm_compute; reflexivity |].
  split; [vm_compute; reflexivity |].
  vm_compute. discriminate.
Qed.

(** C5 (amended): when the synthesis phase of plan B has produced its n
    final responses (both loops ended normally), the run succeeds only if the
    set of these n strings has n elements, and exactly when in addition the
    store call, which comes before the uniqueness assertion, commits.  Two
    equal final responses make the run abort: with the uniqueness failure
    when the store call commits, and otherwise with the error of the store
    call, a text that cannot be encoded, nothing being stored. *)
Theorem final_responses_must_be_unique (cl : clients) (now : nat -> Z)
    (stamp : text) (db : database) (st : task_state) :
  task_turns cl = Done st ->
  let run := test_task_solving_dialogue cl now stamp db in
  let committed :=
    fst (save_dialogue_to_db db now (str_lit "task_solving_" ++ stamp) (st.2))
    = Done tt in
  exists finals,
    final_responses (st.1.2) = Done finals
    /\ map e_content (drop 4 (st.2)) = finals
    /\ length finals = length models
    /\ (fst run = Done tt <->
        committed /\ size (list_to_set finals : gset pyval) = length models)
    /\ (~ NoDup finals -> committed ->
        fst run = Raised (AssertionError unique_msg))
    /\ (~ NoDup finals -> fst run <> Done tt)
    /\ (~ committed -> run = (Raised UnicodeEncodeError, db)).
Proof.
  intros H run committed. destruct (check_unique_after_turns cl st H)
    as (finals & Hfinals & Hentries & Hlen & Hcheck).
  exists finals. split; [exact Hfinals |]. split; [exact Hentries |].
  split; [exact Hlen |].
  subst run committed.
  rewrite (task_solving_after_turns cl now stamp db st H).
  rewrite save_dialogue_to_db_rows.
  destruct (forallb (insertable (str_lit "task_solving_" ++ stamp)) (st.2))
    eqn:Hins; cbn [fst].
  - rewrite Hcheck.
    assert (~ NoDup finals ->
            py_assert
              (size (list_to_set finals : gset pyval) =? length models)%nat
              unique_msg
            = Raised (AssertionError unique_msg)) as Hdup.
    { intros Hdup.
      destruct (size (list_to_set finals : gset pyval) =? length models)%nat
        eqn:Hsize; [| reflexivity].
      exfalso. apply Hdup, size_list_to_set_NoDup.
      apply Nat.eqb_eq in Hsize. rewrite Hlen. exact Hsize. }
    split; [| split; [| split]].
    + rewrite py_assert_Done, Nat.eqb_eq. split; [auto | intros [_ ?]; assumption].
    + intros Hd _. apply Hdup, Hd.
    + intros Hd. rewrite (Hdup Hd). discriminate.
    + intros Hnot. destruct Hnot. reflexivity.
  - split; [| split; [| split]].
    + split; [discriminate | intros [? _]; discriminate].
    + intros _ ?. discriminate.
    + intros _. discriminate.
    + intros _. f_equal. f_equal.
      apply insert_error_of_strings;
        [apply (task_entries_are_strings cl st H) | exact Hins].
Qed.

Lemma final_responses_must_be_unique_witness :
  let st := Sample.state_of Sample.parrots in
  let run :=
    test_task_solving_dialogue Sample.parrots Sample.ticking Sample.stamp [] in
  let committed :=
    fst (save_dialogue_to_db [] Sample.ticking
           (str_lit "task_solving_" ++ Sample.stamp) (st.2))
    = Done tt in
  exists finals,
    final_responses (st.1.2) = Done finals
    /\ map e_content (drop 4 (st.2)) = finals
    /\ length finals = length models
    /\ (fst run = Done tt <->
        committed /\ size (list_to_set finals : gset pyval) = length models)
    /\ (~ NoDup finals -> committed ->
        fst run = Raised (AssertionError unique_msg))
    /\ (~ NoDup finals -> fst run <> Done tt)
    /\ (~ committed -> run = (Raised UnicodeEncodeError, [])).
Proof.
  apply (final_responses_must_be_unique Sample.parrots Sample.ticking
           Sample.stamp [] (Sample.state_of Sample.parrots)).
  vm_compute. reflexivity.
Defined.

(** *** What a turn can raise *)

Lemma for_each_Raised {S A : Type} (P : exn -> Prop) (xs : list A)
    (body : A -> S -> exec S) :
  (forall x s e, body x s = Raised e -> P e) ->
  forall s e, for_each xs body s = Raised e -> P e.
Proof.
  intros Hbody. induction xs as [|x xs IH]; intros s e H; [discriminate |].
  rewrite for_each_cons in H. apply bind_Raised in H as [H | (s' & _ & H)].
  - apply (Hbody x s e H).
  - apply (IH s' e H).
Qed.

(** The assertions of the turns have messages of their own: none of them
    is the message of the uniqueness assertion. *)
Ltac other_message :=
  rewrite ?assert_bind;
  repeat match goal with
         | |- context [if ?c then _ else _] => destruct c
         end;
  intros Heq; try discriminate Heq; injection Heq as <-;
  intros Hmsg; injection Hmsg as Hmsg; vm_compute in Hmsg; discriminate Hmsg.

Lemma check_aspect_response_Raised (model : text) (response : pyval) (e : exn) :
  check_aspect_response model response = Raised e ->
  e <> AssertionError unique_msg.
Proof.
  unfold check_aspect_response. destruct response as [|t]; other_message.
Qed.

Lemma check_final_response_Raised (model : text) (response : pyval) (e : exn) :
  check_final_response model response = Raised e ->
  e <> AssertionError unique_msg.
Proof.
  unfold check_final_response. destruct response as [|t]; other_message.
Qed.

Lemma getitem_Raised (d : gmap text pyval) (key : text) (e : exn) :
  getitem d key = Raised e -> e <> AssertionError unique_msg.
Proof.
  unfold getitem. destruct (d !! key); [discriminate |].
  intros Heq. injection Heq as <-. discriminate.
Qed.

Lemma task_turns_Raised (cl : clients) (e : exn) :
  task_turns cl = Raised e -> e <> AssertionError unique_msg.
Proof.
  unfold task_turns. intros H.
  apply bind_Raised in H as [H | (st & _ & H)].
  - eapply (for_each_Raised (fun e0 => e0 <> AssertionError unique_msg));
      [| exact H].
    intros [model aspect] [[tick rs] es] e0.
    unfold aspect_turn. cbv zeta. intros H0.
    apply bind_Raised in H0 as [H0 | (s & _ & H0)]; [| discriminate].
    apply (check_aspect_response_Raised _ _ _ H0).
  - apply bind_Raised in H as [H | (prompt & _ & H)].
    + unfold final_prompt in H.
      repeat (apply bind_Raised in H as [H | (? & _ & H)];
              [apply (getitem_Raised _ _ _ H) |]).
      discriminate.
    + eapply (for_each_Raised (fun e0 => e0 <> AssertionError unique_msg));
        [| exact H].
      intros model [[tick rs] es] e0.
      unfold final_turn. cbv zeta. intros H0.
      apply bind_Raised in H0 as [H0 | (s & _ & H0)]; [| discriminate].
      apply (check_final_response_Raised _ _ _ H0).
Qed.

(** C10: when plan B aborts on the uniqueness assertion, both loops had
    ended normally and the store call had already committed the whole
    dialogue: the seed, the three aspect responses and the three final
    responses, the equal ones included, are rows of the table. *)
Theorem transcript_stored_before_uniqueness_check (cl : clients)
    (now : nat -> Z) (stamp : text) (db db' : database) :
  test_task_solving_dialogue cl now stamp db
  = (Raised (AssertionError unique_msg), db') ->
  let name := str_lit "task_solving_" ++ stamp in
  exists st new,
    task_turns cl = Done st
    /\ save_dialogue_to_db db now name (st.2) = (Done tt, db')
    /\ db' = db ++ new
    /\ Forall (fun r => test_name r = name) new
    /\ map sequence_number new = [0; 1; 2; 3; 4; 5; 6]
    /\ map message_type new
       = str_lit "task" :: repeat (str_lit "aspect_response") 3
         ++ repeat (str_lit "final_response") 3
    /\ map (fun r => PyStr (message_content r)) new = map e_content (st.2)
    /\ ~ NoDup (map message_content (drop 4 new)).
Proof.
  intros H name.
  destruct (task_turns cl) as [st|e] eqn:Hturns.
  2:{ unfold test_task_solving_dialogue in H. rewrite Hturns in H.
      injection H as He _. exfalso.
      apply (task_turns_Raised cl e Hturns). exact He. }
  rewrite (task_solving_after_turns cl now stamp db st Hturns) in H.
  fold name in H.
  destruct (forallb (insertable name) (st.2)) eqn:Hins.
  2:{ injection H as He _. exfalso.
      destruct (insert_error_kind name (st.2)) as [Hk | Hk];
        rewrite Hk in He; discriminate. }
  injection H as Hcheck Hdb.
  destruct (check_unique_after_turns cl st Hturns)
    as (finals & _ & Hentries & Hlen & Hunique).
  rewrite Hunique in Hcheck.
  destruct (size (list_to_set finals : gset pyval) =? length models)%nat
    eqn:Hsize; [discriminate |].
  apply Nat.eqb_neq in Hsize.
  assert (~ NoDup finals) as Hdup.
  { intros Hnd. apply Hsize. rewrite <- Hlen. apply size_list_to_set, Hnd. }
  destruct (task_turns_Done cl st Hturns) as (a1 & a2 & a3 & f1 & f2 & f3 & ->).
  cbn [fst snd] in *.
  exists (6%nat,
          <[final_key (str_lit "gigachat") := PyStr f3]>
            (<[final_key (str_lit "ollama") := PyStr f2]>
               (<[final_key (str_lit "openai") := PyStr f1]>
                  (<[str_lit "gigachat" := PyStr a3]>
                     (<[str_lit "ollama" := PyStr a2]>
                        (<[str_lit "openai" := PyStr a1]> ∅))))),
          [task_entry;
           aspect_entry (str_lit "openai")
             (str_lit "technical aspect of the platform") (PyStr a1);
           aspect_entry (str_lit "ollama")
             (str_lit "pedagogical aspect of the platform") (PyStr a2);
           aspect_entry (str_lit "gigachat")
             (str_lit "user experience aspect") (PyStr a3);
           final_entry (str_lit "openai") (PyStr f1);
           final_entry (str_lit "ollama") (PyStr f2);
           final_entry (str_lit "gigachat") (PyStr f3)]).
  eexists. cbn [fst snd].
  split; [reflexivity |].
  split; [rewrite save_dialogue_to_db_rows, Hins, <- Hdb; reflexivity |].
  split; [symmetry; exact Hdb |].
  split; [apply rows_from_test_name |].
  split; [apply rows_from_sequence_number |].
  split; [apply rows_from_message_type |].
  split; [rewrite <- (map_map message_content PyStr), rows_from_message_content;
          reflexivity |].
  intros Hnd. apply Hdup. rewrite <- Hentries.
  change (NoDup (PyStr <$> [f1; f2; f3])).
  apply (NoDup_fmap_2 PyStr). exact Hnd.
Qed.

Lemma transcript_stored_before_uniqueness_check_witness :
  let name := str_lit "task_solving_" ++ Sample.stamp in
  let db' :=
    snd (test_task_solving_dialogue Sample.parrots Sample.ticking
           Sample.stamp []) in
  exists st new,
    task_turns Sample.parrots = Done st
    /\ save_dialogue_to_db [] Sample.ticking name (st.2) = (Done tt, db')
    /\ db' = [] ++ new
    /\ Forall (fun r => test_name r = name) new
    /\ map sequence_number new = [0; 1; 2; 3; 4; 5; 6]
    /\ map message_type new
       = str_lit "task" :: repeat (str_lit "aspect_response") 3
         ++ repeat (str_lit "final_response") 3
    /\ map (fun r => PyStr (message_content r)) new = map e_content (st.2)
    /\ ~ NoDup (map message_content (drop 4 new)).
Proof.
  apply (transcript_stored_before_uniqueness_check Sample.parrots
           Sample.ticking Sample.stamp []).
  vm_compute. reflexivity.
Defined.

(** ** Both plans: what an aborted run leaves in the store *)

(** C1, as the claim states it, fails: with a second backend that always
    answers with the empty string, plan A accepts the first backend's
    response and aborts on the second backend's first turn, on the
    non-empty assertion; the seed and the accepted response were entries of
    the run by then, and the stored transcript of the run has no entry. *)
Lemma aborted_run_has_no_stored_transcript :
  let name := str_lit "russian_dialogue_" ++ Sample.stamp in
  let run :=
    test_russian_dialogue Sample.isalpha Sample.ollama_silent Sample.ticking
      Sample.stamp [] in
  discussion_turn Sample.isalpha Sample.ollama_silent (str_lit "openai")
    (0%nat, [topic_entry])
  = Done (1%nat, [topic_entry; response_entry (str_lit "openai") Sample.privet])
  /\ fst run
     = Raised (AssertionError (str_lit "Response from ollama must not be empty"))
  /\ get_dialogue_from_db (snd run) name = []
  /\ length (get_dialogue_from_db (snd run) name) <> 2%nat.
Proof.
  split; [vm_compute; reflexivity |].
  split; [vm_compute; reflexivity |].
  split; [vm_compute; reflexivity |].
  vm_compute. discriminate.
Qed.

(** C1 (amended): in both plans the entries are collected in memory and
    handed to the store in one call after the last turn.  A run of plan A
    that aborts, and a run of plan B that aborts with a failure other than
    the uniqueness failure (on some backend's turn, or in the store call
    itself), leave the store as it was before the run: no entry of the run,
    the seed included, is stored. *)
Theorem aborted_run_stores_nothing (isalpha : Z -> bool) (cl : clients)
    (now : nat -> Z) (stamp : text) (db db' : database) (e : exn) :
  (test_russian_dialogue isalpha cl now stamp db = (Raised e, db') -> db' = db)
  /\ (test_task_solving_dialogue cl now stamp db = (Raised e, db') ->
      e <> AssertionError unique_msg -> db' = db).
Proof.
  split.
  - unfold test_russian_dialogue.
    destruct (discussion_rounds isalpha cl) as [[tick es]|e0].
    + rewrite save_dialogue_to_db_rows.
      destruct (forallb _ es); intros H; [discriminate |].
      injection H as _ <-. reflexivity.
    + intros H. injection H as _ <-. reflexivity.
  - intros H Hother. destruct (task_turns cl) as [st|e0] eqn:Hturns.
    + rewrite (task_solving_after_turns cl now stamp db st Hturns) in H.
      destruct (forallb _ (st.2)); [| injection H as _ <-; reflexivity].
      exfalso. apply Hother.
      injection H as Hcheck _.
      destruct (check_unique_after_turns cl st Hturns)
        as (finals & _ & _ & _ & Hunique).
      rewrite Hunique in Hcheck. unfold py_assert in Hcheck.
      destruct (size (list_to_set finals : gset pyval) =? length models)%nat;
        [discriminate |].
      injection Hcheck as <-. reflexivity.
    + unfold test_task_solving_dialogue in H. rewrite Hturns in H.
      injection H as _ <-. reflexivity.
Qed.

Lemma aborted_run_stores_nothing_witness :
  snd (test_russian_dialogue Sample.isalpha Sample.ollama_silent
         Sample.ticking Sample.stamp []) = []
  /\ snd (test_task_solving_dialogue Sample.ollama_silent Sample.ticking
            Sample.stamp []) = [].
Proof.
  split.
  - apply (proj1 (aborted_run_stores_nothing Sample.isalpha
                    Sample.ollama_silent Sample.ticking Sample.stamp [] _
                    (AssertionError
                       (str_lit "Response from ollama must not be empty")))).
    vm_compute. reflexivity.
  - apply (proj2 (aborted_run_stores_nothing Sample.isalpha
                    Sample.ollama_silent Sample.ticking Sample.stamp [] _
                    (AssertionError
                       (str_lit "Response from ollama must not be empty")))).
    + vm_compute. reflexivity.
    + vm_compute. discriminate.
Defined.

(** ** Plan B: the checks of the aspect phase *)

Lemma check_aspect_response_failure (model : text) (response : pyval) (e : exn) :
  check_aspect_response model response = Raised e ->
  exists reason,
    reason ∈ aspect_failures
    /\ e = AssertionError (str_lit "Response from " ++ model ++ reason).
Proof.
  unfold check_aspect_response, aspect_failures. destruct response as [|t].
  { intros H. injection H as <-. eexists. split; [| reflexivity].
    apply list_elem_of_here. }
  rewrite !assert_bind.
  destruct (0 <? length t)%nat.
  2:{ intros H. injection H as <-. eexists. split; [| reflexivity].
      apply list_elem_of_further, list_elem_of_here. }
  destruct (re_search_russian t); [discriminate |].
  intros H. injection H as <-. eexists. split; [| reflexivity].
  do 2 apply list_elem_of_further. apply list_elem_of_here.
Qed.







(** * Further properties of the store *)

Lemma rows_from_aspect n0 now name k es :
  map aspect (rows_from n0 now name k es)
  = map (fun e => pyval_to_option (entry_aspect e)) es.
Proof.
  revert n0 k. induction es as [|e es IH]; intros n0 k; simpl;
    [reflexivity | f_equal; apply IH].
Qed.

Lemma rows_from_timestamp n0 now name k es :
  map timestamp (rows_from n0 now name k es) = map now (seq k (length es)).
Proof.
  revert n0 k. induction es as [|e es IH]; intros n0 k; simpl;
    [reflexivity | f_equal; apply IH].
Qed.

Lemma rows_from_id n0 now name k es :
  map id (rows_from n0 now name k es)
  = map (fun i => Z.of_nat i + 1) (seq n0 (length es)).
Proof.
  revert n0 k. induction es as [|e es IH]; intros n0 k; simpl;
    [reflexivity | f_equal; apply IH].
Qed.

Lemma insertable_storable (name : text) (e : entry) :
  insertable name e = true <-> utf8_encodable name = true /\ storable e.
Proof.
  unfold storable, insertable, insert_row, entry_model, entry_type,
    bind_parameter.
  destruct (utf8_encodable name) eqn:En;
    destruct (default (PyStr (str_lit "system")) (e_model e)) as [|m];
    destruct (default (PyStr (str_lit "message")) (e_type e)) as [|t];
    destruct (e_content e) as [|c];
    try destruct (utf8_encodable m) eqn:Em;
    try destruct (utf8_encodable t) eqn:Et;
    try destruct (utf8_encodable c) eqn:Ec;
    destruct (e_aspect e) as [[|a]|];
    try destruct (utf8_encodable a) eqn:Ea;
    cbn; try rewrite Ea; cbn;
    (split;
     [ try discriminate; intros _;
       (split; [reflexivity |]);
       (split;
        [ do 3 eexists; repeat split; first [reflexivity | eassumption]
        | intros a' Ha'; try discriminate; congruence ])
     | try reflexivity;
       intros (Hn & (m' & t' & c' & Hm' & Ht' & Hc' & Em' & Et' & Ec') & Ha');
       try discriminate; try congruence;
       try (specialize (Ha' _ eq_refl); congruence) ]).
Qed.

Lemma row_error_integrity (name : text) (e : entry) :
  insertable name e = false ->
  row_error name e = IntegrityError ->
  entry_model e = PyNone \/ entry_type e = PyNone \/ e_content e = PyNone.
Proof.
  unfold insertable, row_error, insert_row, entry_model, entry_type,
    bind_parameter.
  destruct (utf8_encodable name); [| discriminate].
  destruct (default (PyStr (str_lit "system")) (e_model e)) as [|m];
    [auto |].
  destruct (default (PyStr (str_lit "message")) (e_type e)) as [|t];
    [auto |].
  destruct (e_content e) as [|c]; [auto |].
  destruct (default PyNone (e_aspect e)) as [|a];
    repeat match goal with
           | |- context [utf8_encodable ?x] => destruct (utf8_encodable x)
           end; simpl; intros; discriminate.
Qed.

(** X1: [save_dialogue_to_db] commits exactly when every entry can be
    stored (its speaker, kind and content are strings, the two first being
    left out or there, and no string of the entry holds a lone surrogate)
    and, unless there is no entry, the run name holds no lone surrogate
    either.  Otherwise the call raises, the encoding error or the integrity
    error, the latter only when some entry has [None] for its speaker, kind
    or content, and the table is as it was before: the entries in front of
    the offending one are not stored either. *)
Theorem save_is_all_or_nothing (db : database) (now : nat -> Z) (name : text)
    (dialogue_entries : list entry) :
  let result := save_dialogue_to_db db now name dialogue_entries in
  (fst result = Done tt <->
   (dialogue_entries = [] \/ utf8_encodable name = true)
   /\ Forall storable dialogue_entries)
  /\ (fst result = Done tt ->
      length (snd result) = (length db + length dialogue_entries)%nat)
  /\ (fst result <> Done tt ->
      exists x,
        result = (Raised x, db)
        /\ (x = UnicodeEncodeError \/ x = IntegrityError)
        /\ (x = IntegrityError ->
            Exists (fun e => entry_model e = PyNone \/ entry_type e = PyNone
                             \/ e_content e = PyNone) dialogue_entries)).
Proof.
  intros result. subst result. rewrite save_dialogue_to_db_rows.
  destruct (forallb (insertable name) dialogue_entries) eqn:Hins; cbn [fst snd].
  - split; [| split].
    + split; [intros _ | reflexivity].
      rewrite forallb_forall in Hins. split.
      * destruct dialogue_entries as [|e es]; [left; reflexivity | right].
        exact (proj1 (proj1 (insertable_storable name e)
                        (Hins e (or_introl eq_refl)))).
      * apply Forall_forall. intros e He.
        apply list_elem_of_In in He.
        exact (proj2 (proj1 (insertable_storable name e) (Hins e He))).
    + intros _. rewrite length_app, rows_from_length. reflexivity.
    + intros Hnot. destruct Hnot. reflexivity.
  - split; [| split].
    + split; [discriminate |]. intros [Hname Hall]. exfalso.
      apply not_true_iff_false in Hins. apply Hins, forallb_forall.
      intros e He. apply (proj2 (insertable_storable name e)). split.
      * destruct Hname as [-> | Hname]; [destruct He | exact Hname].
      * rewrite Forall_forall in Hall. apply Hall, list_elem_of_In, He.
    + discriminate.
    + intros _. eexists. split; [reflexivity |]. split.
      * destruct (insert_error_kind name dialogue_entries); auto.
      * clear db now. induction dialogue_entries as [|e es IH];
          [discriminate |].
        cbn [forallb insert_error] in *.
        destruct (insertable name e) eqn:He.
        -- intros Hx. apply Exists_cons_tl, IH; assumption.
        -- intros Hx. apply Exists_cons_hd.
           apply (row_error_integrity name e He Hx).
Qed.

Lemma save_is_all_or_nothing_witness :
  exists x,
    save_dialogue_to_db [] Sample.ticking (str_lit "run")
      [Sample.one_entry; mk_entry None (Some PyNone) (PyStr Sample.privet) None]
    = (Raised x, [])
    /\ (x = UnicodeEncodeError \/ x = IntegrityError)
    /\ (x = IntegrityError ->
        Exists (fun e => entry_model e = PyNone \/ entry_type e = PyNone
                         \/ e_content e = PyNone)
          [Sample.one_entry;
           mk_entry None (Some PyNone) (PyStr Sample.privet) None]).
Proof.
  apply (proj2 (proj2 (save_is_all_or_nothing [] Sample.ticking (str_lit "run")
                         [Sample.one_entry;
                          mk_entry None (Some PyNone) (PyStr Sample.privet)
                            None]))).
  vm_compute. discriminate.
Defined.

(** X2: what a call that commits has saved under a run name that had no rows
    is what the listing of that run gives back: one row per entry, in the
    order of the call, with the entry's content, with the values of
    [entry.get("model", "system")], [entry.get("type", "message")] and
    [entry.get("aspect")], and with the time of its INSERT. *)
Theorem saved_dialogue_is_listed_back (db : database) (now : nat -> Z)
    (name : text) (dialogue_entries : list entry) :
  filter (fun r => test_name r = name) db = [] ->
  fst (save_dialogue_to_db db now name dialogue_entries) = Done tt ->
  let rows :=
    get_dialogue_from_db
      (snd (save_dialogue_to_db db now name dialogue_entries)) name in
  map (fun r => PyStr (message_content r)) rows = map e_content dialogue_entries
  /\ map (fun r => PyStr (model_name r)) rows = map entry_model dialogue_entries
  /\ map (fun r => PyStr (message_type r)) rows
     = map entry_type dialogue_entries
  /\ map aspect rows
     = map (fun e => pyval_to_option (entry_aspect e)) dialogue_entries
  /\ map timestamp rows = map now (seq 0 (length dialogue_entries))
  /\ map sequence_number rows
     = map Z.of_nat (seq 0 (length dialogue_entries)).
Proof.
  intros Hfresh Hdone rows. revert Hdone.
  assert (forallb (insertable name) dialogue_entries = true ->
          rows = rows_from (length db) now name 0 dialogue_entries) as Hrows.
  { intros Hins. subst rows. unfold get_dialogue_from_db, select_dialogue.
    rewrite save_dialogue_to_db_rows, Hins.
    cbn [snd]. rewrite list.filter_app, filter_rows_from, Hfresh.
    destruct (decide (name = name)); [| contradiction]. cbn [app].
    apply (sort_by_ascending _ 0%nat).
    rewrite rows_from_sequence_number, rows_from_length. reflexivity. }
  rewrite save_dialogue_to_db_rows.
  destruct (forallb (insertable name) dialogue_entries) eqn:Hins;
    [intros _ | discriminate].
  rewrite (Hrows eq_refl). clear Hrows rows.
  rewrite forallb_forall in Hins.
  split.
  { rewrite <- (map_map message_content PyStr), rows_from_message_content.
    rewrite map_map. apply map_ext_in. intros e He.
    apply (insertable_values name e (Hins e He)). }
  split.
  { rewrite <- (map_map model_name PyStr), rows_from_model_name.
    rewrite map_map. apply map_ext_in. intros e He.
    apply (insertable_values name e (Hins e He)). }
  split.
  { rewrite <- (map_map message_type PyStr), rows_from_message_type.
    rewrite map_map. apply map_ext_in. intros e He.
    apply (insertable_values name e (Hins e He)). }
  split; [apply rows_from_aspect |].
  split; [apply rows_from_timestamp | apply rows_from_sequence_number].
Qed.

Lemma saved_dialogue_is_listed_back_witness :
  let dialogue_entries :=
    [mk_entry None None (PyStr Sample.privet) None; Sample.one_entry] in
  let rows :=
    get_dialogue_from_db
      (snd (save_dialogue_to_db [] Sample.ticking (str_lit "run")
              dialogue_entries)) (str_lit "run") in
  map (fun r => PyStr (message_content r)) rows = map e_content dialogue_entries
  /\ map (fun r => PyStr (model_name r)) rows = map entry_model dialogue_entries
  /\ map (fun r => PyStr (message_type r)) rows
     = map entry_type dialogue_entries
  /\ map aspect rows
     = map (fun e => pyval_to_option (entry_aspect e)) dialogue_entries
  /\ map timestamp rows = map Sample.ticking (seq 0 (length dialogue_entries))
  /\ map sequence_number rows
     = map Z.of_nat (seq 0 (length dialogue_entries)).
Proof.
  apply (saved_dialogue_is_listed_back [] Sample.ticking (str_lit "run")
           [mk_entry None None (PyStr Sample.privet) None; Sample.one_entry]).
  - reflexivity.
  - vm_compute. reflexivity.
Defined.

(** X3: a call of [save_dialogue_to_db] under one run name, whether it
    commits or raises, leaves the listing of every other run as it was. *)
Theorem save_leaves_other_runs_alone (db : database) (now : nat -> Z)
    (name name' : text) (dialogue_entries : list entry) :
  name <> name' ->
  get_dialogue_from_db
    (snd (save_dialogue_to_db db now name dialogue_entries)) name'
  = get_dialogue_from_db db name'.
Proof.
  intros Hne. unfold get_dialogue_from_db, select_dialogue.
  rewrite save_keeps_other_runs by exact Hne. reflexivity.
Qed.

Lemma save_leaves_other_runs_alone_witness :
  let db :=
    snd (save_dialogue_to_db [] Sample.ticking (str_lit "run_a")
           [Sample.one_entry]) in
  get_dialogue_from_db
    (snd (save_dialogue_to_db db Sample.ticking (str_lit "run_b")
            [Sample.one_entry; Sample.one_entry])) (str_lit "run_a")
  = get_dialogue_from_db db (str_lit "run_a").
Proof.
  apply (save_leaves_other_runs_alone
           (snd (save_dialogue_to_db [] Sample.ticking (str_lit "run_a")
                   [Sample.one_entry]))
           Sample.ticking (str_lit "run_b") (str_lit "run_a")
           [Sample.one_entry; Sample.one_entry]).
  discriminate.
Defined.

(** X4: on any table, also one in which a run name was used by several
    calls, [get_dialogue_from_db(test_name)] returns exactly the rows stored
    under that name, each as often as it is stored, in an order in which the
    sequence numbers never decrease. *)
Theorem listing_is_the_run_in_order (db : database) (name : text) :
  let rows := get_dialogue_from_db db name in
  rows ≡ₚ filter (fun r => test_name r = name) db
  /\ Forall (fun r => test_name r = name /\ r ∈ db) rows
  /\ StronglySorted (fun r1 r2 => sequence_number r1 <= sequence_number r2) rows.
Proof.
  intros rows. subst rows. unfold get_dialogue_from_db, select_dialogue.
  set (le := fun r1 r2 : row => sequence_number r1 <=? sequence_number r2).
  assert (sort_by le (filter (fun r => test_name r = name) db)
          ≡ₚ filter (fun r => test_name r = name) db) as Hperm
    by apply sort_by_perm.
  split; [exact Hperm |]. split.
  - rewrite Hperm. apply Forall_forall. intros r Hr.
    apply list_elem_of_filter in Hr as [Hname Hin]. split; assumption.
  - eapply StronglySorted_weaken; [| apply (sort_by_sorted le)].
    + intros r1 r2. unfold le. lia.
    + intros x y. unfold le. lia.
    + intros x y z. unfold le. lia.
Qed.

(** X5: the store is only ever appended to.  A call of
    [save_dialogue_to_db] and a run of either plan, however it ends, leave
    every row that was in the table where it was and as it was: the table
    before is a prefix of the table after. *)
Theorem store_is_append_only (isalpha : Z -> bool) (cl : clients)
    (now : nat -> Z) (name stamp : text) (dialogue_entries : list entry)
    (db : database) :
  db `prefix_of` snd (save_dialogue_to_db db now name dialogue_entries)
  /\ db `prefix_of` snd (test_russian_dialogue isalpha cl now stamp db)
  /\ db `prefix_of` snd (test_task_solving_dialogue cl now stamp db).
Proof.
  assert (forall nm es, db `prefix_of` snd (save_dialogue_to_db db now nm es))
    as Hsave.
  { intros nm es. rewrite save_dialogue_to_db_rows.
    destruct (forallb _ es); cbn [snd]; [apply prefix_app_r |]; reflexivity. }
  split; [apply Hsave |]. split.
  - unfold test_russian_dialogue.
    destruct (discussion_rounds isalpha cl) as [[tick es]|e];
      [apply Hsave | reflexivity].
  - unfold test_task_solving_dialogue.
    destruct (task_turns cl) as [[[tick responses] es]|e]; [| reflexivity].
    specialize (Hsave (str_lit "task_solving_" ++ stamp) es).
    destruct (save_dialogue_to_db db now (str_lit "task_solving_" ++ stamp) es)
      as [[u|e] db']; exact Hsave.
Qed.

(** X6: [view_latest_test_results] goes through at most five pairs of a run
    name and a timestamp, the later timestamp first; a pair that is left out
    is not later than any pair shown; every pair shown comes with at least
    one message, and its messages are the rows of that run in the order of
    [get_dialogue_from_db].  When all rows of each run carry one timestamp,
    no run is shown twice. *)
Theorem view_shows_the_latest_tests (db : database) :
  let view := view_latest_test_results db in
  let tests := map fst view in
  (length view <= 5)%nat
  /\ StronglySorted (fun p q : text * Z => snd q <= snd p) tests
  /\ (forall r p, r ∈ db -> p ∈ tests ->
        (test_name r, timestamp r) ∉ tests -> timestamp r <= snd p)
  /\ Forall (fun block =>
               snd block <> []
               /\ snd block
                  = map message_columns
                      (get_dialogue_from_db db (fst (fst block)))
               /\ exists r, r ∈ db /\ fst block = (test_name r, timestamp r))
            view
  /\ ((forall r1 r2, r1 ∈ db -> r2 ∈ db -> test_name r1 = test_name r2 ->
                     timestamp r1 = timestamp r2) ->
      NoDup (map fst tests)).
Proof.
  intros view tests.
  assert (tests = select_latest_tests db) as Htests.
  { subst tests view. unfold view_latest_test_results.
    rewrite map_map. simpl. apply map_id. }
  destruct (select_latest_tests_sound db)
    as (Hlen & Hsorted & _ & Hin & Hlate & Hone).
  cbv zeta in Hlen, Hsorted, Hin, Hlate, Hone.
  split.
  { subst view. unfold view_latest_test_results. rewrite length_map. exact Hlen. }
  split; [rewrite Htests; exact Hsorted |].
  split.
  { intros r p Hr Hp Hout. rewrite Htests in Hp, Hout.
    apply (Hlate (test_name r, timestamp r) p); [| exact Hout | exact Hp].
    apply list_elem_of_In, in_map_iff. exists r.
    split; [reflexivity | apply list_elem_of_In, Hr]. }
  split.
  { apply Forall_forall. intros [test msgs] Hblock.
    subst view. unfold view_latest_test_results in Hblock.
    apply list_elem_of_In, in_map_iff in Hblock as (test' & Heq & Htest).
    injection Heq as -> <-. cbn [fst snd].
    apply list_elem_of_In, Hin, list_elem_of_In, in_map_iff in Htest
      as (r & Hr & Hrin).
    assert (r ∈ db) as Hrdb by (apply list_elem_of_In, Hrin).
    split; [| split; [reflexivity | exists r; split; [exact Hrdb | congruence]]].
    intros Hnil. apply map_eq_nil in Hnil.
    assert (r ∈ get_dialogue_from_db db (fst test)) as Hlisted.
    { unfold get_dialogue_from_db, select_dialogue.
      rewrite sort_by_perm. apply list_elem_of_filter.
      split; [rewrite <- Hr; reflexivity | exact Hrdb]. }
    unfold get_dialogue_from_db in Hnil, Hlisted.
    rewrite Hnil in Hlisted. apply elem_of_nil in Hlisted. exact Hlisted. }
  intros Hsingle. rewrite Htests. apply Hone, Hsingle.
Qed.

(** * Further properties of the checks *)

Lemma re_search_russian_app (a b : text) :
  re_search_russian (a ++ b) = re_search_russian a || re_search_russian b.
Proof. unfold re_search_russian. apply existsb_app. Qed.

Lemma models_have_no_russian_letter (model : text) :
  model ∈ models -> re_search_russian model = false.
Proof.
  unfold models. intros H.
  repeat (apply elem_of_cons in H as [-> | H]; [reflexivity |]).
  apply elem_of_nil in H. destruct H.
Qed.

Lemma error_text_russian (model detail : text) :
  model ∈ models ->
  re_search_russian (error_text model detail) = re_search_russian detail.
Proof.
  intros Hmodel. unfold error_text.
  rewrite !re_search_russian_app, (models_have_no_russian_letter model Hmodel).
  reflexivity.
Qed.

(** X7: the text that [get_model_response] makes of a backend's exception,
    [Error getting response from <backend>: <detail>], gets past the
    assertions on the type, on the length and on letters.  For each of the
    three backends the turn is then decided by the exception's own text:
    when [detail] has no letter of [а-яА-Я] the run aborts with the
    must-be-in-Russian failure, and when it has one the error text is
    accepted as the backend's response, in plan A and in the aspect phase of
    plan B alike. *)
Theorem error_text_under_validation (isalpha : Z -> bool)
    (model detail : text) :
  isalpha 69 = true ->
  model ∈ models ->
  check_response isalpha model (PyStr (error_text model detail))
  = (if re_search_russian detail
     then Done (error_text model detail)
     else Raised (AssertionError
                    (str_lit "Response from " ++ model
                     ++ str_lit " must be in Russian")))
  /\ check_aspect_response model (PyStr (error_text model detail))
     = (if re_search_russian detail
        then Done (error_text model detail)
        else Raised (AssertionError
                       (str_lit "Response from " ++ model
                        ++ str_lit " must be in Russian"))).
Proof.
  intros HE Hmodel.
  assert ((0 <? length (error_text model detail))%nat = true) as Hlen
    by reflexivity.
  assert (existsb isalpha (error_text model detail) = true) as Halpha.
  { unfold error_text. change (str_lit "Error getting response from ")
      with (69 :: str_lit "rror getting response from ").
    cbn [app existsb]. rewrite HE. reflexivity. }
  unfold check_response, check_aspect_response.
  rewrite !assert_bind, Hlen, Halpha, (error_text_russian model detail Hmodel).
  destruct (re_search_russian detail); split; reflexivity.
Qed.

Lemma error_text_under_validation_witness :
  check_response Sample.isalpha (str_lit "gigachat")
    (PyStr (error_text (str_lit "gigachat") Sample.privet))
  = Done (error_text (str_lit "gigachat") Sample.privet)
  /\ check_aspect_response (str_lit "gigachat")
       (PyStr (error_text (str_lit "gigachat") Sample.privet))
     = Done (error_text (str_lit "gigachat") Sample.privet).
Proof.
  apply (error_text_under_validation Sample.isalpha (str_lit "gigachat")
           Sample.privet).
  - reflexivity.
  - apply (bool_decide_unpack _). vm_compute. reflexivity.
Defined.

Lemma split_from_words (s : text) : forall word,
  Forall (fun c => isspace c = false) word ->
  Forall (fun w => w <> [] /\ Forall (fun c => isspace c = false) w)
         (split_from word s).
Proof.
  assert (forall c word, Forall (fun c => isspace c = false) (c :: word) ->
            rev (c :: word) <> []
            /\ Forall (fun c => isspace c = false) (rev (c :: word))) as Hword.
  { intros c word Hw. split.
    - simpl. intros Hnil. apply app_eq_nil in Hnil as [_ Hnil]. discriminate.
    - apply Forall_rev, Hw. }
  induction s as [|c s IH]; intros word Hw; simpl.
  - destruct word as [|c' word]; constructor; [apply Hword, Hw | constructor].
  - destruct (isspace c) eqn:Hc.
    + destruct word as [|c' word]; [apply IH; constructor |].
      constructor; [apply Hword, Hw | apply IH; constructor].
    + apply IH. constructor; assumption.
Qed.

Lemma split_from_count (s : text) : forall word,
  (2 * length (split_from word s)
   <= length s + match word with [] => 1 | _ => 2 end)%nat.
Proof.
  induction s as [|c s IH]; intros word; simpl.
  - destruct word; simpl; lia.
  - destruct (isspace c).
    + destruct word as [|c' word].
      * specialize (IH []). simpl in IH. lia.
      * specialize (IH []). simpl in *. lia.
    + specialize (IH (c :: word)). simpl in IH. destruct word; lia.
Qed.

(** X8: a final response of plan B is accepted only if [split] finds at
    least 20 words in it; the words are the runs of characters between
    whitespace, none of them empty, so a final response of fewer than 39
    characters is turned down whatever it says. *)
Theorem accepted_final_response_is_long (model : text) (response : pyval)
    (s : text) :
  check_final_response model response = Done s ->
  response = PyStr s
  /\ (20 <= length (split s))%nat
  /\ Forall (fun w => w <> [] /\ Forall (fun c => isspace c = false) w)
            (split s)
  /\ (39 <= length s)%nat.
Proof.
  intros H. apply check_final_response_Done in H as (Hr & _ & _ & Hwords).
  apply Nat.leb_le in Hwords. unfold min_words in Hwords.
  split; [exact Hr |]. split; [exact Hwords |].
  split; [apply split_from_words; constructor |].
  pose proof (split_from_count s []) as Hcount.
  change (2 * length (split s) <= length s + 1)%nat in Hcount. lia.
Qed.

Lemma accepted_final_response_is_long_witness :
  PyStr Sample.twenty_words = PyStr Sample.twenty_words
  /\ (20 <= length (split Sample.twenty_words))%nat
  /\ Forall (fun w => w <> [] /\ Forall (fun c => isspace c = false) w)
            (split Sample.twenty_words)
  /\ (39 <= length Sample.twenty_words)%nat.
Proof.
  apply (accepted_final_response_is_long (str_lit "openai")
           (PyStr Sample.twenty_words) Sample.twenty_words).
  vm_compute. reflexivity.
Defined.

(** * Further properties of plan A *)

Lemma utf8_encodable_app (a b : text) :
  utf8_encodable (a ++ b) = utf8_encodable a && utf8_encodable b.
Proof. apply forallb_app. Qed.

Lemma insertable_topic_entry (name : text) :
  insertable name topic_entry = utf8_encodable name.
Proof.
  unfold insertable, insert_row, bind_parameter.
  destruct (utf8_encodable name); vm_compute; reflexivity.
Qed.

Lemma insertable_response_entry (name m s : text) :
  insertable name (response_entry m s)
  = utf8_encodable name && utf8_encodable m && utf8_encodable s.
Proof.
  unfold insertable, insert_row, bind_parameter, response_entry.
  destruct (utf8_encodable name); [| reflexivity]. cbn.
  destruct (utf8_encodable m); [| reflexivity]. cbn.
  destruct (utf8_encodable s); reflexivity.
Qed.

Lemma response_entries_have_strings (ms ss : list text) :
  Forall (fun e => exists m t c,
            entry_model e = PyStr m /\ entry_type e = PyStr t
            /\ e_content e = PyStr c) (zip_with response_entry ms ss).
Proof.
  revert ss. induction ms as [|m ms IH]; intros [|s ss]; try constructor.
  - do 3 eexists. repeat split; reflexivity.
  - apply IH.
Qed.

(** Responses of backends with encodable names that cannot be stored under
    an encodable run name: one of them holds a lone surrogate. *)
Lemma unstorable_responses (name : text) (ms ss : list text) :
  utf8_encodable name = true ->
  Forall (fun m => utf8_encodable m = true) ms ->
  forallb (insertable name) (zip_with response_entry ms ss) = false ->
  Exists (fun s => utf8_encodable s = false) ss.
Proof.
  intros Hname. revert ss.
  induction ms as [|m ms IH]; intros [|s ss] Hms H; try discriminate.
  apply Forall_cons in Hms as [Hm Hms].
  change (zip_with response_entry (m :: ms) (s :: ss))
    with (response_entry m s :: zip_with response_entry ms ss) in H.
  cbn [forallb] in H. rewrite insertable_response_entry, Hname, Hm in H.
  cbn [andb] in H.
  destruct (utf8_encodable s) eqn:Hs; [| apply Exists_cons_hd; exact Hs].
  apply Exists_cons_tl, IH; assumption.
Qed.

(** The store call of plan A can fail: three backends whose responses pass
    the four assertions and hold a lone surrogate. *)
Example discussion_store_failure :
  test_russian_dialogue Sample.isalpha Sample.broken_parrots Sample.ticking
    Sample.stamp []
  = (Raised UnicodeEncodeError, []).
Proof. vm_compute. reflexivity. Qed.

Section PlanAFlow.

Variable isalpha : Z -> bool.
Variable cl : clients.

(** X9: how the context of plan A grows.  In a run whose nine turns are all
    accepted, turn [i] (counted from 0, in round-robin order) asks its
    backend with the prompt built from the topic followed by the responses
    of the turns 0 to i-1, in that order, joined by newlines; what the
    backend returns is a string that passes the four assertions and is the
    response recorded for that turn. *)
Theorem discussion_context_accumulates (tick : nat) (es : list entry) :
  discussion_rounds isalpha cl = Done (tick, es) ->
  exists ss,
    length ss = 9%nat
    /\ tick = 9%nat
    /\ es = topic_entry :: zip_with response_entry round_robin ss
    /\ forall i m s, round_robin !! i = Some m -> ss !! i = Some s ->
         get_model_response cl i m
           (discussion_prompt (join_text nl (topic :: take i ss)))
         = PyStr s
         /\ (0 <? length s)%nat = true
         /\ existsb isalpha s = true
         /\ re_search_russian s = true.
Proof.
  unfold discussion_rounds. rewrite for_each_nested. intros H.
  apply (discussion_loop_Done isalpha cl _ [] [] _ eq_refl) in H
    as (ss & Hlen & Hst & Hflow).
  injection Hst as -> ->.
  exists ss. split; [exact Hlen |]. split; [cbn [app]; exact Hlen |].
  split; [reflexivity |].
  intros i m s Hm Hs.
  apply (proj1 (check_response_Done isalpha m _ s)). exact (Hflow i m s Hm Hs).
Qed.

(** X10: how plan A fails.  A run that raises has stored nothing, and it
    has stopped in one of two ways.  Either at the first turn whose response
    fails an assertion: the turns before it were accepted, the exception is
    the assertion error of that turn, whose message names the backend of the
    turn and one of the four checks.  Or at the store call, after nine
    accepted turns: the exception is the encoding error, and the time stamp
    of the run name or one of the nine responses holds a lone surrogate. *)
Theorem discussion_stops_at_first_failure (now : nat -> Z) (stamp : text)
    (db db' : database) (e : exn) :
  test_russian_dialogue isalpha cl now stamp db = (Raised e, db') ->
  db' = db
  /\ ((exists i m ss reason,
         round_robin !! i = Some m
         /\ length ss = i
         /\ (forall j m' s', round_robin !! j = Some m' -> ss !! j = Some s' ->
               check_response isalpha m'
                 (get_model_response cl j m'
                    (discussion_prompt (join_text nl (topic :: take j ss))))
               = Done s')
         /\ check_response isalpha m
              (get_model_response cl i m
                 (discussion_prompt (join_text nl (topic :: ss))))
            = Raised e
         /\ reason ∈ response_failures
         /\ e = AssertionError (str_lit "Response from " ++ m ++ reason))
      \/ (exists ss,
            length ss = 9%nat
            /\ discussion_rounds isalpha cl
               = Done (9%nat,
                       topic_entry :: zip_with response_entry round_robin ss)
            /\ e = UnicodeEncodeError
            /\ (utf8_encodable stamp = false
                \/ Exists (fun s => utf8_encodable s = false) ss))).
Proof.
  unfold test_russian_dialogue. intros H.
  destruct (discussion_rounds isalpha cl) as [[tick es]|e0] eqn:Hrounds.
  - assert (exists ss, length ss = 9%nat /\ tick = 9%nat
              /\ es = topic_entry :: zip_with response_entry round_robin ss)
      as (ss & Hlen & -> & ->).
    { unfold discussion_rounds in Hrounds. rewrite for_each_nested in Hrounds.
      apply (discussion_loop_Done isalpha cl _ [] [] _ eq_refl) in Hrounds
        as (ss & Hlen & Hst & _).
      exists ss. split; [exact Hlen |].
      pose proof (f_equal fst Hst) as Htick. pose proof (f_equal snd Hst) as Hes.
      cbn [fst snd] in Htick, Hes. rewrite !app_nil_l in Htick, Hes.
      split; [rewrite Htick; exact Hlen | exact Hes]. }
    revert H. rewrite save_dialogue_to_db_rows.
    destruct (forallb _ _) eqn:Hins; [discriminate |].
    intros H.
    pose proof (f_equal snd H) as Hdb. cbn [snd] in Hdb. subst db'.
    assert (e = insert_error (str_lit "russian_dialogue_" ++ stamp)
                  (topic_entry :: zip_with response_entry round_robin ss))
      as -> by congruence.
    clear H. split; [reflexivity |]. right. exists ss.
    split; [exact Hlen |]. split; [reflexivity |]. split.
    + apply insert_error_of_strings; [| exact Hins].
      constructor; [do 3 eexists; repeat split; reflexivity |].
      apply response_entries_have_strings.
    + cbn [forallb] in Hins. rewrite insertable_topic_entry in Hins.
      rewrite utf8_encodable_app in Hins.
      change (utf8_encodable (str_lit "russian_dialogue_")) with true in Hins.
      cbn [andb] in Hins.
      destruct (utf8_encodable stamp) eqn:Hstamp; [| left; reflexivity].
      right. cbn [andb] in Hins.
      eapply (unstorable_responses _ round_robin ss); [| | exact Hins].
      * rewrite utf8_encodable_app, Hstamp. reflexivity.
      * repeat constructor.
  - injection H as -> <-. split; [reflexivity |]. left.
    unfold discussion_rounds in Hrounds. rewrite for_each_nested in Hrounds.
    apply (discussion_loop_Raised isalpha cl _ [] [] _ eq_refl) in Hrounds
      as (i & m & ss & Hm & Hi & Hacc & Hfail).
    destruct (check_response_Raised isalpha _ _ _ Hfail)
      as (reason & Hreason & He).
    exists i, m, ss, reason. repeat split; assumption.
Qed.

End PlanAFlow.

Lemma discussion_context_accumulates_witness :
  let st :=
    match discussion_rounds Sample.isalpha Sample.cooperative with
    | Done st => st
    | Raised _ => (0%nat, [])
    end in
  exists ss,
    length ss = 9%nat
    /\ fst st = 9%nat
    /\ snd st = topic_entry :: zip_with response_entry round_robin ss
    /\ forall i m s, round_robin !! i = Some m -> ss !! i = Some s ->
         get_model_response Sample.cooperative i m
           (discussion_prompt (join_text nl (topic :: take i ss)))
         = PyStr s
         /\ (0 <? length s)%nat = true
         /\ existsb Sample.isalpha s = true
         /\ re_search_russian s = true.
Proof.
  apply (discussion_context_accumulates Sample.isalpha Sample.cooperative).
  vm_compute. reflexivity.
Defined.

Lemma discussion_stops_at_first_failure_witness :
  let e := AssertionError (str_lit "Response from ollama must not be empty") in
  @nil row = []
  /\ ((exists i m ss reason,
         round_robin !! i = Some m
         /\ length ss = i
         /\ (forall j m' s', round_robin !! j = Some m' -> ss !! j = Some s' ->
               check_response Sample.isalpha m'
                 (get_model_response Sample.ollama_silent j m'
                    (discussion_prompt (join_text nl (topic :: take j ss))))
               = Done s')
         /\ check_response Sample.isalpha m
              (get_model_response Sample.ollama_silent i m
                 (discussion_prompt (join_text nl (topic :: ss))))
            = Raised e
         /\ reason ∈ response_failures
         /\ e = AssertionError (str_lit "Response from " ++ m ++ reason))
      \/ (exists ss,
            length ss = 9%nat
            /\ discussion_rounds Sample.isalpha Sample.ollama_silent
               = Done (9%nat,
                       topic_entry :: zip_with response_entry round_robin ss)
            /\ e = UnicodeEncodeError
            /\ (utf8_encodable Sample.stamp = false
                \/ Exists (fun s => utf8_encodable s = false) ss))).
Proof.
  apply (discussion_stops_at_first_failure Sample.isalpha Sample.ollama_silent
           Sample.ticking Sample.stamp [] []
           (AssertionError (str_lit "Response from ollama must not be empty"))).
  vm_compute. reflexivity.
Defined.

(** * Further properties of plan B *)

Lemma final_prompt_after_aspects (a1 a2 a3 : text) :
  final_prompt
    (<[str_lit "gigachat" := PyStr a3]>
       (<[str_lit "ollama" := PyStr a2]>
          (<[str_lit "openai" := PyStr a1]> ∅)))
  = Done (final_prompt_text a1 a2 a3).
Proof. vm_compute. reflexivity. Qed.

Lemma for_each_Raised_at {S A : Type} (xs : list A) (body : A -> S -> exec S) :
  forall s e, for_each xs body s = Raised e ->
  exists x s', x ∈ xs /\ body x s' = Raised e.
Proof.
  induction xs as [|x xs IH]; intros s e H; [discriminate |].
  rewrite for_each_cons in H. apply bind_Raised in H as [H | (s' & _ & H)].
  - exists x, s. split; [apply list_elem_of_here | exact H].
  - apply IH in H as (x' & s'' & Hin & H). exists x', s''.
    split; [apply list_elem_of_further, Hin | exact H].
Qed.

Lemma check_final_response_failure (model : text) (response : pyval) (e : exn) :
  check_final_response model response = Raised e ->
  exists reason,
    reason ∈ final_failures
    /\ e = AssertionError (str_lit "Final response from " ++ model ++ reason).
Proof.
  unfold check_final_response, final_failures. destruct response as [|t].
  { intros H. injection H as <-. eexists. split; [| reflexivity].
    apply list_elem_of_here. }
  cbv zeta. rewrite !assert_bind.
  destruct (0 <? length t)%nat.
  2:{ intros H. injection H as <-. eexists. split; [| reflexivity].
      apply list_elem_of_further, list_elem_of_here. }
  destruct (re_search_russian t).
  2:{ intros H. injection H as <-. eexists. split; [| reflexivity].
      do 2 apply list_elem_of_further. apply list_elem_of_here. }
  destruct (min_words <=? length (split t))%nat; [discriminate |].
  intros H. injection H as <-. eexists. split; [| reflexivity].
  do 3 apply list_elem_of_further. apply list_elem_of_here.
Qed.

Lemma aspect_turn_accepts (cl : clients) (model aspect s : text) (tick : nat)
    (responses : gmap text pyval) (es : list entry) :
  check_aspect_response model
    (get_model_response cl tick model (aspect_prompt aspect)) = Done s ->
  aspect_turn cl (model, aspect) (tick, responses, es)
  = Done (S tick, <[model := PyStr s]> responses,
          es ++ [aspect_entry model aspect (PyStr s)]).
Proof.
  intros Hs. apply aspect_turn_Done. exists s. split; [exact Hs | reflexivity].
Qed.

Lemma final_turn_accepts (cl : clients) (prompt model s : text) (tick : nat)
    (responses : gmap text pyval) (es : list entry) :
  check_final_response model (get_model_response cl tick model prompt) = Done s ->
  final_turn cl prompt model (tick, responses, es)
  = Done (S tick, <[final_key model := PyStr s]> responses,
          es ++ [final_entry model (PyStr s)]).
Proof.
  intros Hs. apply final_turn_Done. exists s. split; [exact Hs | reflexivity].
Qed.

(** The aspect loop ends normally exactly when its three responses are
    accepted. *)
Lemma aspect_loop_Done (cl : clients) (st : task_state) :
  for_each aspects (aspect_turn cl) (0%nat, ∅, [task_entry]) = Done st <->
  exists a1 a2 a3 : text,
    check_aspect_response (str_lit "openai")
      (get_model_response cl 0 (str_lit "openai")
         (aspect_prompt (str_lit "technical aspect of the platform")))
    = Done a1
    /\ check_aspect_response (str_lit "ollama")
         (get_model_response cl 1 (str_lit "ollama")
            (aspect_prompt (str_lit "pedagogical aspect of the platform")))
       = Done a2
    /\ check_aspect_response (str_lit "gigachat")
         (get_model_response cl 2 (str_lit "gigachat")
            (aspect_prompt (str_lit "user experience aspect")))
       = Done a3
    /\ st = (3%nat,
             <[str_lit "gigachat" := PyStr a3]>
               (<[str_lit "ollama" := PyStr a2]>
                  (<[str_lit "openai" := PyStr a1]> ∅)),
             [task_entry;
              aspect_entry (str_lit "openai")
                (str_lit "technical aspect of the platform") (PyStr a1);
              aspect_entry (str_lit "ollama")
                (str_lit "pedagogical aspect of the platform") (PyStr a2);
              aspect_entry (str_lit "gigachat")
                (str_lit "user experience aspect") (PyStr a3)]).
Proof.
  unfold aspects. rewrite for_each_cons. split.
  - intros H.
    apply bind_Done in H as (sa & H1 & H).
    apply aspect_turn_Done in H1 as (a1 & Ha1 & ->).
    apply bind_Done in H as (sb & H2 & H).
    apply aspect_turn_Done in H2 as (a2 & Ha2 & ->).
    apply bind_Done in H as (sc & H3 & H).
    apply aspect_turn_Done in H3 as (a3 & Ha3 & ->).
    injection H as <-. exists a1, a2, a3. repeat split; assumption.
  - intros (a1 & a2 & a3 & Ha1 & Ha2 & Ha3 & ->).
    rewrite (aspect_turn_accepts cl _ _ a1 _ _ _ Ha1).
    change (Done ?x ≫= ?f) with (f x). rewrite for_each_cons.
    rewrite (aspect_turn_accepts cl _ _ a2 _ _ _ Ha2).
    change (Done ?x ≫= ?f) with (f x). rewrite for_each_cons.
    rewrite (aspect_turn_accepts cl _ _ a3 _ _ _ Ha3).
    reflexivity.
Qed.

(** X11: how plan B passes text on.  Both loops end normally exactly when
    each backend's aspect response, asked for with the prompt of its own
    aspect, passes the three assertions of the aspect phase, and each
    backend's final response, asked for with one and the same synthesis
    prompt holding the three accepted aspect responses word for word, passes
    the four assertions of the synthesis; the dictionary and the seven
    entries then hold exactly these six strings. *)
Theorem task_turns_flow (cl : clients) (st : task_state) :
  task_turns cl = Done st <->
  exists a1 a2 a3 f1 f2 f3 : text,
    check_aspect_response (str_lit "openai")
      (get_model_response cl 0 (str_lit "openai")
         (aspect_prompt (str_lit "technical aspect of the platform")))
    = Done a1
    /\ check_aspect_response (str_lit "ollama")
         (get_model_response cl 1 (str_lit "ollama")
            (aspect_prompt (str_lit "pedagogical aspect of the platform")))
       = Done a2
    /\ check_aspect_response (str_lit "gigachat")
         (get_model_response cl 2 (str_lit "gigachat")
            (aspect_prompt (str_lit "user experience aspect")))
       = Done a3
    /\ check_final_response (str_lit "openai")
         (get_model_response cl 3 (str_lit "openai")
            (final_prompt_text a1 a2 a3))
       = Done f1
    /\ check_final_response (str_lit "ollama")
         (get_model_response cl 4 (str_lit "ollama")
            (final_prompt_text a1 a2 a3))
       = Done f2
    /\ check_final_response (str_lit "gigachat")
         (get_model_response cl 5 (str_lit "gigachat")
            (final_prompt_text a1 a2 a3))
       = Done f3
    /\ st = (6%nat,
             <[final_key (str_lit "gigachat") := PyStr f3]>
               (<[final_key (str_lit "ollama") := PyStr f2]>
                  (<[final_key (str_lit "openai") := PyStr f1]>
                     (<[str_lit "gigachat" := PyStr a3]>
                        (<[str_lit "ollama" := PyStr a2]>
                           (<[str_lit "openai" := PyStr a1]> ∅))))),
             [task_entry;
              aspect_entry (str_lit "openai")
                (str_lit "technical aspect of the platform") (PyStr a1);
              aspect_entry (str_lit "ollama")
                (str_lit "pedagogical aspect of the platform") (PyStr a2);
              aspect_entry (str_lit "gigachat")
                (str_lit "user experience aspect") (PyStr a3);
              final_entry (str_lit "openai") (PyStr f1);
              final_entry (str_lit "ollama") (PyStr f2);
              final_entry (str_lit "gigachat") (PyStr f3)]).
Proof.
  unfold task_turns. split.
  - intros H. apply bind_Done in H as (st1 & Haspects & H).
    apply aspect_loop_Done in Haspects as (a1 & a2 & a3 & Ha1 & Ha2 & Ha3 & ->).
    cbn [fst snd] in H. rewrite final_prompt_after_aspects in H.
    change (Done ?x ≫= ?f) with (f x) in H. cbv beta in H.
    unfold models in H. rewrite for_each_cons in H.
    apply bind_Done in H as (sd & H4 & H).
    apply final_turn_Done in H4 as (f1 & Hf1 & ->).
    apply bind_Done in H as (se & H5 & H).
    apply final_turn_Done in H5 as (f2 & Hf2 & ->).
    apply bind_Done in H as (sf & H6 & H).
    apply final_turn_Done in H6 as (f3 & Hf3 & ->).
    injection H as <-. exists a1, a2, a3, f1, f2, f3. repeat split; assumption.
  - intros (a1 & a2 & a3 & f1 & f2 & f3 & Ha1 & Ha2 & Ha3 & Hf1 & Hf2 & Hf3 & ->).
    rewrite (proj2 (aspect_loop_Done cl _)
               (ex_intro _ a1 (ex_intro _ a2 (ex_intro _ a3
                  (conj Ha1 (conj Ha2 (conj Ha3 eq_refl))))))).
    change (Done ?x ≫= ?f) with (f x). cbv beta. cbn [fst snd].
    rewrite final_prompt_after_aspects.
    change (Done ?x ≫= ?f) with (f x). cbv beta.
    unfold models. rewrite for_each_cons.
    rewrite (final_turn_accepts cl _ _ f1 _ _ _ Hf1).
    change (Done ?x ≫= ?f) with (f x). rewrite for_each_cons.
    rewrite (final_turn_accepts cl _ _ f2 _ _ _ Hf2).
    change (Done ?x ≫= ?f) with (f x). rewrite for_each_cons.
    rewrite (final_turn_accepts cl _ _ f3 _ _ _ Hf3).
    reflexivity.
Qed.

Lemma task_turns_flow_witness :
  exists a1 a2 a3 f1 f2 f3 : text,
    check_aspect_response (str_lit "openai")
      (get_model_response Sample.parrots 0 (str_lit "openai")
         (aspect_prompt (str_lit "technical aspect of the platform")))
    = Done a1
    /\ check_aspect_response (str_lit "ollama")
         (get_model_response Sample.parrots 1 (str_lit "ollama")
            (aspect_prompt (str_lit "pedagogical aspect of the platform")))
       = Done a2
    /\ check_aspect_response (str_lit "gigachat")
         (get_model_response Sample.parrots 2 (str_lit "gigachat")
            (aspect_prompt (str_lit "user experience aspect")))
       = Done a3
    /\ check_final_response (str_lit "openai")
         (get_model_response Sample.parrots 3 (str_lit "openai")
            (final_prompt_text a1 a2 a3))
       = Done f1
    /\ check_final_response (str_lit "ollama")
         (get_model_response Sample.parrots 4 (str_lit "ollama")
            (final_prompt_text a1 a2 a3))
       = Done f2
    /\ check_final_response (str_lit "gigachat")
         (get_model_response Sample.parrots 5 (str_lit "gigachat")
            (final_prompt_text a1 a2 a3))
       = Done f3
    /\ Sample.state_of Sample.parrots
       = (6%nat,
          <[final_key (str_lit "gigachat") := PyStr f3]>
            (<[final_key (str_lit "ollama") := PyStr f2]>
               (<[final_key (str_lit "openai") := PyStr f1]>
                  (<[str_lit "gigachat" := PyStr a3]>
                     (<[str_lit "ollama" := PyStr a2]>
                        (<[str_lit "openai" := PyStr a1]> ∅))))),
          [task_entry;
           aspect_entry (str_lit "openai")
             (str_lit "technical aspect of the platform") (PyStr a1);
           aspect_entry (str_lit "ollama")
             (str_lit "pedagogical aspect of the platform") (PyStr a2);
           aspect_entry (str_lit "gigachat")
             (str_lit "user experience aspect") (PyStr a3);
           final_entry (str_lit "openai") (PyStr f1);
           final_entry (str_lit "ollama") (PyStr f2);
           final_entry (str_lit "gigachat") (PyStr f3)]).
Proof.
  apply (proj1 (task_turns_flow Sample.parrots
                  (Sample.state_of Sample.parrots))).
  vm_compute. reflexivity.
Defined.

(** X12: a run of plan B that succeeds has added exactly 7 rows under its
    run name, numbered 0 to 6: the task from ["system"], then the aspect
    response of each backend in the configured order, each with the label of
    its aspect, then the final response of each backend in the same order,
    with no aspect; the three final responses are pairwise different. *)
Theorem task_solving_stores_seven_entries (cl : clients) (now : nat -> Z)
    (stamp : text) (db db' : database) :
  test_task_solving_dialogue cl now stamp db = (Done tt, db') ->
  let name := str_lit "task_solving_" ++ stamp in
  exists new,
    db' = db ++ new
    /\ Forall (fun r => test_name r = name) new
    /\ map sequence_number new = [0; 1; 2; 3; 4; 5; 6]
    /\ map model_name new = str_lit "system" :: models ++ models
    /\ map message_type new
       = str_lit "task" :: repeat (str_lit "aspect_response") 3
         ++ repeat (str_lit "final_response") 3
    /\ map aspect new
       = None :: map (fun item => Some (snd item)) aspects ++ repeat None 3
    /\ NoDup (map message_content (drop 4 new))
    /\ (filter (fun r => test_name r = name) db = [] ->
        get_dialogue_from_db db' name = new).
Proof.
  intros H name.
  destruct (task_turns cl) as [st|e] eqn:Hturns.
  2:{ unfold test_task_solving_dialogue in H. rewrite Hturns in H.
      discriminate. }
  rewrite (task_solving_after_turns cl now stamp db st Hturns) in H.
  fold name in H. revert H.
  destruct (forallb (insertable name) (st.2)); [| discriminate].
  intros H. pose proof (f_equal fst H) as Hcheck.
  pose proof (f_equal snd H) as Hdb. cbn [fst snd] in Hcheck, Hdb.
  subst db'. clear H.
  destruct (check_unique_after_turns cl st Hturns)
    as (finals & _ & Hentries & Hlen & Hunique).
  rewrite Hunique in Hcheck. apply py_assert_Done, Nat.eqb_eq in Hcheck.
  rewrite <- Hlen in Hcheck. apply size_list_to_set_NoDup in Hcheck.
  destruct (task_turns_Done cl st Hturns) as (a1 & a2 & a3 & f1 & f2 & f3 & ->).
  cbn [fst snd] in *. eexists.
  split; [reflexivity |].
  split; [apply rows_from_test_name |].
  split; [apply rows_from_sequence_number |].
  split; [apply rows_from_model_name |].
  split; [apply rows_from_message_type |].
  split; [apply rows_from_aspect |].
  split.
  { rewrite <- Hentries in Hcheck.
    change (NoDup (PyStr <$> [f1; f2; f3])) in Hcheck.
    apply NoDup_fmap_1 in Hcheck. exact Hcheck. }
  intros Hfresh. unfold get_dialogue_from_db, select_dialogue.
  rewrite list.filter_app, filter_rows_from, Hfresh.
  destruct (decide (name = name)); [| contradiction]. cbn [app].
  apply (sort_by_ascending _ 0%nat).
  rewrite rows_from_sequence_number, rows_from_length. reflexivity.
Qed.

Lemma task_solving_stores_seven_entries_witness :
  let name := str_lit "task_solving_" ++ Sample.stamp in
  let db' :=
    snd (test_task_solving_dialogue Sample.cooperative Sample.ticking
           Sample.stamp []) in
  exists new,
    db' = [] ++ new
    /\ Forall (fun r => test_name r = name) new
    /\ map sequence_number new = [0; 1; 2; 3; 4; 5; 6]
    /\ map model_name new = str_lit "system" :: models ++ models
    /\ map message_type new
       = str_lit "task" :: repeat (str_lit "aspect_response") 3
         ++ repeat (str_lit "final_response") 3
    /\ map aspect new
       = None :: map (fun item => Some (snd item)) aspects ++ repeat None 3
    /\ NoDup (map message_content (drop 4 new))
    /\ (filter (fun r => test_name r = name) [] = [] ->
        get_dialogue_from_db db' name = new).
Proof.
  apply (task_solving_stores_seven_entries Sample.cooperative Sample.ticking
           Sample.stamp []).
  vm_compute. reflexivity.
Defined.

(** Entries whose speaker, kind and aspect can be stored, under a run name
    that can be encoded, fail to be stored only on a content that holds a
    lone surrogate. *)
Lemma unstorable_content (name : text) (es : list entry) :
  utf8_encodable name = true ->
  Forall (fun e => exists m t c,
            entry_model e = PyStr m /\ entry_type e = PyStr t
            /\ e_content e = PyStr c
            /\ utf8_encodable m = true /\ utf8_encodable t = true
            /\ forall a, e_aspect e = Some (PyStr a) ->
                         utf8_encodable a = true) es ->
  forallb (insertable name) es = false ->
  Exists (fun e => exists s, e_content e = PyStr s /\ utf8_encodable s = false)
    es.
Proof.
  intros Hname. induction es as [|e es IH]; intros Hall H; [discriminate |].
  apply Forall_cons in Hall as [(m & t & c & Hm & Ht & Hc & Em & Et & Ha) Hall].
  cbn [forallb] in H.
  destruct (utf8_encodable c) eqn:Ec.
  - apply Exists_cons_tl, IH; [exact Hall |].
    rewrite (proj2 (insertable_storable name e)) in H; [exact H |].
    split; [exact Hname |]. split; [| exact Ha].
    exists m, t, c. repeat split; assumption.
  - apply Exists_cons_hd. exists c. split; [exact Hc | exact Ec].
Qed.

Lemma task_entries_but_content (cl : clients) (st : task_state) :
  task_turns cl = Done st ->
  Forall (fun e => exists m t c,
            entry_model e = PyStr m /\ entry_type e = PyStr t
            /\ e_content e = PyStr c
            /\ utf8_encodable m = true /\ utf8_encodable t = true
            /\ forall a, e_aspect e = Some (PyStr a) ->
                         utf8_encodable a = true) (st.2).
Proof.
  intros H. destruct (task_turns_Done cl st H) as (a1 & a2 & a3 & f1 & f2 & f3 & ->).
  cbn [snd].
  repeat constructor; do 3 eexists;
    (split; [reflexivity |]); (split; [reflexivity |]);
    (split; [reflexivity |]); (split; [reflexivity |]);
    (split; [reflexivity |]);
    intros a Ha; try discriminate Ha; injection Ha as <-; reflexivity.
Qed.

(** The store call of plan B can fail on an aspect response too. *)
Example task_solving_store_failure :
  test_task_solving_dialogue Sample.broken_parrots Sample.ticking Sample.stamp []
  = (Raised UnicodeEncodeError, []).
Proof. vm_compute. reflexivity. Qed.

(** X13: what plan B can raise, and what is stored then.  A run that raises
    ends in one of three ways.  In the uniqueness failure, after the store
    call: the seven rows of the run are stored.  In the assertion error of one
    turn, whose message names one of the three backends and one of the three
    checks of the aspect phase ([Response from ...]) or one of the four
    checks of the synthesis ([Final response from ...]): nothing is stored.
    Or in the encoding error of the store call, after six accepted turns:
    nothing is stored, and the time stamp of the run name or one of the six
    responses holds a lone surrogate.  No key is missing from the dictionary
    when it is read. *)
Theorem task_solving_failures (cl : clients) (now : nat -> Z) (stamp : text)
    (db db' : database) (e : exn) :
  test_task_solving_dialogue cl now stamp db = (Raised e, db') ->
  (e = AssertionError unique_msg
   /\ exists new, db' = db ++ new /\ length new = 7%nat)
  \/ (db' = db
      /\ exists model reason,
           model ∈ models
           /\ ((reason ∈ aspect_failures
                /\ e = AssertionError
                         (str_lit "Response from " ++ model ++ reason))
               \/ (reason ∈ final_failures
                   /\ e = AssertionError
                            (str_lit "Final response from " ++ model
                             ++ reason))))
  \/ (db' = db
      /\ e = UnicodeEncodeError
      /\ exists st,
           task_turns cl = Done st
           /\ (utf8_encodable stamp = false
               \/ Exists (fun e => exists s, e_content e = PyStr s
                                             /\ utf8_encodable s = false)
                    (st.2))).
Proof.
  intros H. destruct (task_turns cl) as [st|e0] eqn:Hturns.
  - rewrite (task_solving_after_turns cl now stamp db st Hturns) in H.
    revert H.
    destruct (forallb (insertable (str_lit "task_solving_" ++ stamp)) (st.2))
      eqn:Hins; intros H;
      pose proof (f_equal fst H) as Hcheck; pose proof (f_equal snd H) as Hdb;
      cbn [fst snd] in Hcheck, Hdb; subst db'; clear H.
    + left. split.
      * destruct (check_unique_after_turns cl st Hturns)
          as (finals & _ & _ & _ & Hunique).
        rewrite Hunique in Hcheck. unfold py_assert in Hcheck.
        destruct (size (list_to_set finals : gset pyval) =? length models)%nat;
          [discriminate |].
        congruence.
      * eexists. split; [reflexivity |]. rewrite rows_from_length.
        destruct (task_turns_Done cl st Hturns)
          as (a1 & a2 & a3 & f1 & f2 & f3 & ->). reflexivity.
    + right. right. split; [reflexivity |].
      assert (e = insert_error (str_lit "task_solving_" ++ stamp) (st.2))
        as -> by congruence.
      split.
      * apply insert_error_of_strings;
          [apply (task_entries_are_strings cl st Hturns) | exact Hins].
      * exists st. split; [reflexivity |].
        destruct (utf8_encodable stamp) eqn:Hstamp; [right | left; reflexivity].
        apply (unstorable_content (str_lit "task_solving_" ++ stamp));
          [| apply (task_entries_but_content cl st Hturns) | exact Hins].
        rewrite utf8_encodable_app, Hstamp. reflexivity.
  - right. left. unfold test_task_solving_dialogue in H. rewrite Hturns in H.
    pose proof (f_equal snd H) as Hdb. cbn [snd] in Hdb. subst db'.
    split; [reflexivity |].
    assert (e0 = e) as -> by congruence. clear H.
    unfold task_turns in Hturns.
    apply bind_Raised in Hturns as [Hloop | (st & Haspects & Hturns)].
    + apply for_each_Raised_at in Hloop
        as ([model aspect] & [[tick rs] es] & Hin & Hturn).
      unfold aspect_turn in Hturn. cbv zeta in Hturn.
      apply bind_Raised in Hturn as [Hturn | (s & _ & Hturn)]; [| discriminate].
      apply check_aspect_response_failure in Hturn as (reason & Hreason & ->).
      exists model, reason. split; [| left; split; [exact Hreason | reflexivity]].
      unfold aspects, models in *.
      repeat (apply elem_of_cons in Hin as [Hin | Hin];
              [injection Hin as -> _; apply (bool_decide_unpack _); vm_compute;
               reflexivity |]).
      apply elem_of_nil in Hin. destruct Hin.
    + apply aspect_loop_Done in Haspects as (a1 & a2 & a3 & _ & _ & _ & ->).
      cbn [fst snd] in Hturns. rewrite final_prompt_after_aspects in Hturns.
      change (Done ?x ≫= ?f) with (f x) in Hturns. cbv beta in Hturns.
      apply for_each_Raised_at in Hturns
        as (model & [[tick rs] es] & Hin & Hturn).
      unfold final_turn in Hturn. cbv zeta in Hturn.
      apply bind_Raised in Hturn as [Hturn | (s & _ & Hturn)]; [| discriminate].
      apply check_final_response_failure in Hturn as (reason & Hreason & ->).
      exists model, reason.
      split; [exact Hin | right; split; [exact Hreason | reflexivity]].
Qed.

Lemma task_solving_failures_witness :
  let e := AssertionError unique_msg in
  let db' :=
    snd (test_task_solving_dialogue Sample.parrots Sample.ticking Sample.stamp
           []) in
  (e = AssertionError unique_msg
   /\ exists new, db' = [] ++ new /\ length new = 7%nat)
  \/ (db' = []
      /\ exists model reason,
           model ∈ models
           /\ ((reason ∈ aspect_failures
                /\ e = AssertionError
                         (str_lit "Response from " ++ model ++ reason))
               \/ (reason ∈ final_failures
                   /\ e = AssertionError
                            (str_lit "Final response from " ++ model
                             ++ reason))))
  \/ (db' = []
      /\ e = UnicodeEncodeError
      /\ exists st,
           task_turns Sample.parrots = Done st
           /\ (utf8_encodable Sample.stamp = false
               \/ Exists (fun e => exists s, e_content e = PyStr s
                                             /\ utf8_encodable s = false)
                    (st.2))).
Proof.
  apply (task_solving_failures Sample.parrots Sample.ticking Sample.stamp []).
  vm_compute. reflexivity.
Defined.

(** * Further properties of the two plans together *)

Lemma plan_names_differ (stamp stamp' : text) :
  str_lit "russian_dialogue_" ++ stamp <> str_lit "task_solving_" ++ stamp'.
Proof. discriminate. Qed.

(** X14: a run of either plan, however it ends, leaves the stored transcript
    of every run with another name as it was.  The names of the two plans
    start differently, so a run of plan B never changes the transcript of a
    run of plan A, and a run of plan A never that of a run of plan B,
    whatever the two time stamps are. *)
Theorem runs_leave_other_transcripts_alone (isalpha : Z -> bool)
    (cl : clients) (now : nat -> Z) (stamp stamp' name : text)
    (db : database) :
  (name <> str_lit "russian_dialogue_" ++ stamp ->
   get_dialogue_from_db (snd (test_russian_dialogue isalpha cl now stamp db)) name
   = get_dialogue_from_db db name)
  /\ (name <> str_lit "task_solving_" ++ stamp ->
      get_dialogue_from_db (snd (test_task_solving_dialogue cl now stamp db)) name
      = get_dialogue_from_db db name)
  /\ get_dialogue_from_db (snd (test_task_solving_dialogue cl now stamp' db))
       (str_lit "russian_dialogue_" ++ stamp)
     = get_dialogue_from_db db (str_lit "russian_dialogue_" ++ stamp)
  /\ get_dialogue_from_db (snd (test_russian_dialogue isalpha cl now stamp' db))
       (str_lit "task_solving_" ++ stamp)
     = get_dialogue_from_db db (str_lit "task_solving_" ++ stamp).
Proof.
  assert (forall st nm,
            nm <> str_lit "russian_dialogue_" ++ st ->
            get_dialogue_from_db
              (snd (test_russian_dialogue isalpha cl now st db)) nm
            = get_dialogue_from_db db nm) as HA.
  { intros st nm Hne. unfold test_russian_dialogue.
    destruct (discussion_rounds isalpha cl) as [[tick es]|e]; [| reflexivity].
    unfold get_dialogue_from_db, select_dialogue.
    rewrite save_keeps_other_runs by congruence. reflexivity. }
  assert (forall st nm,
            nm <> str_lit "task_solving_" ++ st ->
            get_dialogue_from_db
              (snd (test_task_solving_dialogue cl now st db)) nm
            = get_dialogue_from_db db nm) as HB.
  { intros st nm Hne. unfold test_task_solving_dialogue.
    destruct (task_turns cl) as [[[tick responses] es]|e]; [| reflexivity].
    assert (str_lit "task_solving_" ++ st <> nm) as Hne' by congruence.
    pose proof (save_keeps_other_runs db now
                  (str_lit "task_solving_" ++ st) es nm Hne') as Hsave.
    unfold get_dialogue_from_db, select_dialogue.
    destruct (save_dialogue_to_db db now (str_lit "task_solving_" ++ st) es)
      as [[u|e] db1]; cbn [snd] in *; rewrite Hsave; reflexivity. }
  split; [apply HA |]. split; [apply HB |].
  split; [apply HB, plan_names_differ |].
  apply HA. intros Heq. symmetry in Heq. apply (plan_names_differ _ _ Heq).
Qed.

Lemma runs_leave_other_transcripts_alone_witness :
  let db :=
    snd (test_russian_dialogue Sample.isalpha Sample.cooperative
           Sample.ticking Sample.stamp []) in
  get_dialogue_from_db
    (snd (test_task_solving_dialogue Sample.cooperative Sample.ticking
            Sample.stamp db))
    (str_lit "russian_dialogue_" ++ Sample.stamp)
  = get_dialogue_from_db db (str_lit "russian_dialogue_" ++ Sample.stamp).
Proof.
  apply (proj1 (proj2 (runs_leave_other_transcripts_alone Sample.isalpha
                         Sample.cooperative Sample.ticking Sample.stamp
                         Sample.stamp
                         (str_lit "russian_dialogue_" ++ Sample.stamp)
                         (snd (test_russian_dialogue Sample.isalpha
                                 Sample.cooperative Sample.ticking
                                 Sample.stamp []))))).
  discriminate.
Defined.

(** * The printed section *)

Lemma center_short (s : text) (width : nat) (fill : Z) :
  (length s < width)%nat ->
  exists left right,
    center s width fill = repeat fill left ++ s ++ repeat fill right
    /\ (left + length s + right = width)%nat
    /\ (Nat.even width = true -> left <= right <= left + 1)%nat.
Proof.
  intros Hlt. unfold center.
  destruct (Nat.leb_spec width (length s)) as [Hle | _]; [lia |].
  set (marg := (width - length s)%nat).
  set (extra := if Nat.odd marg && Nat.odd width then 1%nat else 0%nat).
  assert (extra <= 1 /\ (Nat.odd marg = false -> extra = 0)
          /\ (Nat.even width = true -> extra = 0))%nat as (Hextra & Hm & Hw).
  { subst extra. unfold Nat.odd.
    destruct (Nat.even marg), (Nat.even width); simpl; repeat split;
      intros; try lia; discriminate. }
  assert (marg = 2 * (marg / 2) + (if Nat.odd marg then 1 else 0))%nat
    as Hdiv.
  { rewrite (Nat.div_mod_eq marg 2) at 1. f_equal.
    rewrite <- Nat.bit0_mod. unfold Nat.testbit. reflexivity. }
  exists (marg / 2 + extra)%nat, (marg - (marg / 2 + extra))%nat.
  split; [reflexivity |].
  destruct (Nat.odd marg) eqn:Hodd.
  - split; [subst marg; lia |]. intros Hev. specialize (Hw Hev). lia.
  - specialize (Hm eq_refl). split; [subst marg; lia | intros _; lia].
Qed.

(** X15: the title line of a printed section.  A title of at most 78
    characters is printed with a space on each side, between runs of [=]
    that fill the line to exactly the 80 characters of the rules above and
    below it, the run on the right being as long as the one on the left or
    one longer.  A longer title is printed with its two spaces only, and
    the line is then longer than the rules. *)
Theorem section_title_line (title content : text) :
  let out := print_dialogue_section title content in
  ((length title <= 78)%nat ->
   exists left right,
     out !! 1%nat
     = Some (repeat 61 left ++ (str_lit " " ++ title ++ str_lit " ")
             ++ repeat 61 right)
     /\ (left + (length title + 2) + right = 80)%nat
     /\ (left <= right <= left + 1)%nat
     /\ out !! 0%nat = Some (nl ++ repeat 61 80)
     /\ out !! 2%nat = Some (repeat 61 80))
  /\ ((78 < length title)%nat ->
      out !! 1%nat = Some (str_lit " " ++ title ++ str_lit " ")
      /\ (80 < length (str_lit " " ++ title ++ str_lit " "))%nat)
  /\ out !! 3%nat = Some content
  /\ length out = 5%nat.
Proof.
  intros out.
  assert (length (str_lit " " ++ title ++ str_lit " ") = length title + 2)%nat
    as Hlen by (rewrite !length_app; simpl; lia).
  split; [| split; [| split; reflexivity]].
  - intros Hfit. subst out. unfold print_dialogue_section. cbn [lookup list_lookup].
    destruct (decide (length title = 78%nat)) as [H78 | Hne].
    + exists 0%nat, 0%nat. unfold center. rewrite Hlen, H78.
      cbn [Nat.leb Nat.add repeat app]. rewrite app_nil_r.
      repeat split; lia.
    + destruct (center_short (str_lit " " ++ title ++ str_lit " ") 80 61)
        as (left & right & Hc & Hsum & Hbal); [lia |].
      exists left, right. rewrite Hc, <- Hlen.
      split; [reflexivity |]. split; [exact Hsum |].
      split; [apply Hbal; reflexivity | split; reflexivity].
  - intros Hlong. subst out. unfold print_dialogue_section.
    cbn [lookup list_lookup]. unfold center.
    destruct (Nat.leb_spec 80 (length (str_lit " " ++ title ++ str_lit " ")))
      as [_ | Hlt]; [| lia].
    split; [reflexivity | lia].
Qed.

Lemma section_title_line_witness :
  let out :=
    print_dialogue_section (str_lit "Response from model openai")
      Sample.privet in
  exists left right,
    out !! 1%nat
    = Some (repeat 61 left
            ++ (str_lit " " ++ str_lit "Response from model openai" ++ str_lit " ")
            ++ repeat 61 right)
    /\ (left + (length (str_lit "Response from model openai") + 2) + right
        = 80)%nat
    /\ (left <= right <= left + 1)%nat
    /\ out !! 0%nat = Some (nl ++ repeat 61 80)
    /\ out !! 2%nat = Some (repeat 61 80).
Proof.
  apply (proj1 (section_title_line (str_lit "Response from model openai")
                  Sample.privet)).
  vm_compute. lia.
Defined.
